(** * Market basket dashboard: normalisation, filters and aggregations

    A shallow embedding of [app/main.py].  A pandas [DataFrame] is a list
    of rows, a column is the list of one field, a missing value ([None],
    [NaN]) is [None] of an [option].  In the frames the filters and the
    sections work on, prices are exact rationals, timestamps are
    nanoseconds since the epoch and dates are days since the epoch; the
    loader is also embedded on float64 and int64 values with their
    rounding, infinities, NaN and NaT (modules [Float64] and [Table]).
    Streamlit widgets are functions of the value the user left in the
    session (if any) and of the bounds or options the code passes to
    them. *)

From Stdlib Require Import String Ascii.
From Stdlib Require Import List ZArith QArith Bool Lia.
From Stdlib Require Import Permutation Sorted.
Import ListNotations.
Local Open Scope Z_scope.

Set Implicit Arguments.

(** ** pandas primitives *)

Module Pandas.

(** Decidable equality of the values stored in a column. *)
Class Eq (A : Type) := eq_dec : forall x y : A, {x = y} + {x <> y}.

#[export] Instance Eq_string : Eq string := string_dec.
#[export] Instance Eq_Z : Eq Z := Z.eq_dec.
#[export] Instance Eq_nat : Eq nat := Nat.eq_dec.

#[export] Instance Eq_prod {A B} `{Eq A} `{Eq B} : Eq (A * B).
Proof.
  intros [a b] [a' b'].
  destruct (eq_dec a a'); [destruct (eq_dec b b')|];
    [left; congruence | right; congruence | right; congruence].
Defined.

#[export] Instance Eq_option {A} `{Eq A} : Eq (option A).
Proof.
  intros [a|] [a'|]; try (right; discriminate); [|left; reflexivity].
  destruct (eq_dec a a'); [left; congruence | right; congruence].
Defined.

Definition eqb {A} `{Eq A} (x y : A) : bool :=
  if eq_dec x y then true else false.

Definition mem {A} `{Eq A} (x : A) (l : list A) : bool :=
  if in_dec eq_dec x l then true else false.

(** The order used when keys are sorted ([groupby], [sorted]). *)
Class Ord (A : Type) := leb : A -> A -> bool.

#[export] Instance Ord_Z : Ord Z := Z.leb.
#[export] Instance Ord_nat : Ord nat := Nat.leb.
#[export] Instance Ord_string : Ord string := String.leb.
#[export] Instance Ord_prod {A B} `{Eq A} `{Ord A} `{Ord B} : Ord (A * B) :=
  fun x y => if eqb (fst x) (fst y) then leb (snd x) (snd y)
             else leb (fst x) (fst y).

(** [Series.dropna]. *)
Fixpoint dropna {A} (s : list (option A)) : list A :=
  match s with
  | [] => []
  | None :: s' => dropna s'
  | Some a :: s' => a :: dropna s'
  end.

(** [Series.unique]: distinct values in order of first appearance. *)
Fixpoint unique_from {A} `{Eq A} (seen l : list A) : list A :=
  match l with
  | [] => []
  | x :: l' => if mem x seen then unique_from seen l'
               else x :: unique_from (x :: seen) l'
  end.

Definition unique {A} `{Eq A} (l : list A) : list A := unique_from [] l.

(** [Series.nunique()], which leaves missing values out
    ([dropna=True] is the default). *)
Definition nunique {A} `{Eq A} (s : list (option A)) : nat :=
  length (unique (dropna s)).

(** Insertion of a key into an ordered list of keys. *)
Fixpoint insert_key {A} `{Ord A} (x : A) (l : list A) : list A :=
  match l with
  | [] => [x]
  | y :: l' => if leb x y then x :: l else y :: insert_key x l'
  end.

(** Python's [sorted], and the key order of [groupby(sort=True)]. *)
Fixpoint sorted {A} `{Ord A} (l : list A) : list A :=
  match l with
  | [] => []
  | x :: l' => insert_key x (sorted l')
  end.

(** [df.groupby(key)]: one group per distinct non-missing key, keys in
    ascending order, rows of a group in frame order; rows whose key is
    missing belong to no group. *)
Definition groupby {R K} `{Eq K} `{Ord K}
    (key : R -> option K) (df : list R) : list (K * list R) :=
  map (fun k => (k, filter (fun r => eqb (key r) (Some k)) df))
      (sorted (unique (dropna (map key df)))).

(** [Series.sum()] of an integer column. *)
Definition sum_int (s : list Z) : Z := fold_right Z.add 0 s.

(** [Series.sum()] of a float column: missing values are skipped and
    the empty sum is 0. *)
Definition sum_float (s : list (option Q)) : Q :=
  fold_right Qplus 0%Q (dropna s).

(** [Series.mean()]: undefined ([None]) on an empty column. *)
Definition mean (s : list Q) : option Q :=
  match s with
  | [] => None
  | _ => Some (fold_right Qplus 0%Q s / inject_Z (Z.of_nat (length s)))%Q
  end.

(** [Series.min()] and [Series.max()] of an integer column: undefined
    on an empty column. *)
Definition series_min (s : list Z) : option Z :=
  match s with
  | [] => None
  | x :: s' => Some (fold_right Z.min x s')
  end.

Definition series_max (s : list Z) : option Z :=
  match s with
  | [] => None
  | x :: s' => Some (fold_right Z.max x s')
  end.

(** [Series.isin(values)]: a missing value is in no list of strings. *)
Definition isin {A} `{Eq A} (v : option A) (values : list A) : bool :=
  match v with
  | None => false
  | Some a => mem a values
  end.

(** [DataFrame.head(n)]. *)
Definition head {A} (n : Z) (df : list A) : list A :=
  firstn (Z.to_nat n) df.

(** A raw cell as the record source hands it back. *)
Inductive cell : Type :=
| CNull
| CInt (z : Z)
| CFloat (q : Q)
| CText (s : string).

Section ToNumeric.

(** How pandas reads a string as a number; [None] when it does not. *)
Variable parse_numeric : string -> option Q.

(** [pd.to_numeric(_, errors="coerce")]: what is not a number becomes
    missing. *)
Definition to_numeric (c : cell) : option Q :=
  match c with
  | CNull => None
  | CInt z => Some (inject_Z z)
  | CFloat q => Some q
  | CText s => parse_numeric s
  end.

End ToNumeric.

(** [Series.fillna(0)]. *)
Definition fillna0 (v : option Q) : Q :=
  match v with
  | None => 0%Q
  | Some q => q
  end.

(** [Series.astype(int)]: truncation toward zero. *)
Definition astype_int (q : Q) : Z := Z.quot (Qnum q) (Zpos (Qden q)).

End Pandas.

Import Pandas.

(** ** Timestamps *)

Module Time.

Definition ns_per_hour : Z := 3600 * 1000000000.
Definition ns_per_day : Z := 24 * ns_per_hour.

(** [Series.dt.date], as days since 1970-01-01. *)
Definition dt_date (ts : Z) : Z := ts / ns_per_day.

(** [Series.dt.hour]. *)
Definition dt_hour (ts : Z) : Z := (ts mod ns_per_day) / ns_per_hour.

Definition day_names : list string :=
  ["Monday"; "Tuesday"; "Wednesday"; "Thursday"; "Friday"; "Saturday";
   "Sunday"]%string.

(** [Series.dt.day_name()]; 1970-01-01 was a Thursday. *)
Definition dt_day_name (ts : Z) : string :=
  nth (Z.to_nat ((dt_date ts + 3) mod 7)) day_names ""%string.

(** Proleptic Gregorian calendar: year and month of a day number. *)
Definition civil_year_month (days : Z) : Z * Z :=
  let z := days + 719468 in
  let era := z / 146097 in
  let doe := z - era * 146097 in
  let yoe := (doe - doe / 1460 + doe / 36524 - doe / 146096) / 365 in
  let doy := doe - (365 * yoe + yoe / 4 - yoe / 100) in
  let mp := (5 * doy + 2) / 153 in
  let m := if mp <? 10 then mp + 3 else mp - 9 in
  let y := yoe + era * 400 in
  (if m <=? 2 then y + 1 else y, m).

(** Day number of the first day of a month. *)
Definition first_of_month (y m : Z) : Z :=
  let y' := if m <=? 2 then y - 1 else y in
  let era := y' / 400 in
  let yoe := y' - era * 400 in
  let doy := (153 * (if 2 <? m then m - 3 else m + 9) + 2) / 5 in
  let doe := yoe * 365 + yoe / 4 - yoe / 100 + doy in
  era * 146097 + doe - 719468.

(** [Series.dt.to_period("M").dt.to_timestamp()]. *)
Definition to_month_start (ts : Z) : Z :=
  let '(y, m) := civil_year_month (dt_date ts) in
  first_of_month y m * ns_per_day.

(** [pd.to_datetime] of a date: midnight of that day. *)
Definition date_to_datetime (d : Z) : Z := d * ns_per_day.

End Time.

Import Time.

(** ** Data model *)

(** A row of the [transactions] table. *)
Record RawRow : Type := mkRaw {
  bill_no : option string;
  itemname : option string;
  quantity : cell;
  date : Z;
  price : cell;
  customer_id : option Z;
  country : option string
}.

(** A row of the frame [load_data] returns. *)
Record Transaction : Type := mkTransaction {
  BillNo : option string;
  Itemname : option string;
  Quantity : Z;
  Date : Z;
  Price : option Q;
  CustomerID : option Z;
  Country : option string;
  Revenue : option Q;
  InvoiceDate : Z;
  InvoiceMonth : Z;
  Hour : Z;
  Weekday : string
}.

Definition DataFrame : Type := list Transaction.

(** [df.empty]. *)
Definition empty (df : DataFrame) : bool :=
  match df with
  | [] => true
  | _ => false
  end.

(** ** 2. Loading *)

Section Load.

Variable parse_numeric : string -> option Q.

(** [int * float] of two columns, row by row: missing when the float
    is. *)
Definition mul_int_float (n : Z) (x : option Q) : option Q :=
  match x with
  | None => None
  | Some p => Some (inject_Z n * p)%Q
  end.

(** The column assignments of [load_data], on one row. *)
Definition load_row (r : RawRow) : Transaction :=
  let Date := date r in
  let Quantity :=
    astype_int (fillna0 (to_numeric parse_numeric (quantity r))) in
  let Price := to_numeric parse_numeric (price r) in
  {| BillNo := bill_no r;
     Itemname := itemname r;
     Quantity := Quantity;
     Date := Date;
     Price := Price;
     CustomerID := customer_id r;
     Country := country r;
     Revenue := mul_int_float Quantity Price;
     InvoiceDate := dt_date Date;
     InvoiceMonth := to_month_start Date;
     Hour := dt_hour Date;
     Weekday := dt_day_name Date |}.

Definition load_data (rows : list RawRow) : DataFrame :=
  map load_row rows.

End Load.

(** [load_data] above is the loader on the tables whose dates are all
    present and whose numbers are all finite, with exact arithmetic: the
    frames the filters and the sections of the dashboard are stated on.
    The two modules below embed the same lines for every table, with
    the values a float64, an int64 and a datetime column can hold;
    [agrees] relates the rows of the two. *)

(** ** float64 and int64 values *)

Module Float64.

(** A finite double, given by the rational it denotes, an infinity, or
    NaN, which also marks a missing value.  The sign of zero is not
    kept. *)
Inductive float64 : Type :=
| Finite (q : Q)
| Infinite (negative : bool)
| NaN.

(** The rational [m * 2^e], in lowest terms. *)
Definition scaled (m e : Z) : Q :=
  Qred (if 0 <=? e then inject_Z (m * 2 ^ e)
        else m # Z.to_pos (2 ^ (- e))).

(** The double [m * 2^e], infinite from [2^1024] on. *)
Definition finish (m e : Z) : float64 :=
  if 2 ^ 1024 <=? (if 0 <=? e then m * 2 ^ e else 0)
  then Infinite false
  else Finite (scaled m e).

(** The double nearest to [n / d], for [n] and [d] positive: 53
    significant bits, ties to the even one, steps of [2^-1074] below
    [2^-1022]. *)
Definition round_pos (n d : Z) : float64 :=
  let guess := Z.log2 n - Z.log2 d in
  let exponent :=
    if 0 <=? guess
    then (if d * 2 ^ guess <=? n then guess else guess - 1)
    else (if d <=? n * 2 ^ (- guess) then guess else guess - 1) in
  let e := Z.max (exponent - 52) (-1074) in
  let num := if 0 <=? e then n else n * 2 ^ (- e) in
  let den := if 0 <=? e then d * 2 ^ e else d in
  let m := num / den in
  let r := num mod den in
  let m' :=
    if 2 * r <? den then m
    else if den <? 2 * r then m + 1
    else if Z.even m then m else m + 1 in
  finish m' e.

Definition opp (x : float64) : float64 :=
  match x with
  | Finite q => Finite (Qred (- q))
  | Infinite s => Infinite (negb s)
  | NaN => NaN
  end.

(** Rounding to nearest, as every float64 operation ends. *)
Definition round64 (q : Q) : float64 :=
  match Qnum q with
  | 0 => Finite 0
  | Zpos n => round_pos (Zpos n) (Zpos (Qden q))
  | Zneg n => opp (round_pos (Zpos n) (Zpos (Qden q)))
  end.

Definition is_zero (q : Q) : bool := Qnum q =? 0.

Definition is_negative (q : Q) : bool := Qnum q <? 0.

(** [x * y] on float64. *)
Definition mul (x y : float64) : float64 :=
  match x, y with
  | NaN, _ => NaN
  | _, NaN => NaN
  | Infinite s, Infinite s' => Infinite (xorb s s')
  | Infinite s, Finite q =>
      if is_zero q then NaN else Infinite (xorb s (is_negative q))
  | Finite q, Infinite s =>
      if is_zero q then NaN else Infinite (xorb (is_negative q) s)
  | Finite p, Finite q => round64 (p * q)
  end.

Definition int64_min : Z := - 2 ^ 63.
Definition int64_max : Z := 2 ^ 63 - 1.

(** The integer nearest to an int64 that is a double: itself up to
    [2^53], and beyond that the nearest multiple of the power of two
    that leaves 53 significant bits, ties to the even one. *)
Definition round_int (z : Z) : Z :=
  let a := Z.abs z in
  if a <=? 2 ^ 53 then z
  else
    let e := Z.log2 a - 52 in
    let m := a / 2 ^ e in
    let r := a mod 2 ^ e in
    let m' :=
      if 2 * r <? 2 ^ e then m
      else if 2 ^ e <? 2 * r then m + 1
      else if Z.even m then m else m + 1 in
    Z.sgn z * (m' * 2 ^ e).

(** An int64 as a float64. *)
Definition of_int (z : Z) : float64 := Finite (inject_Z (round_int z)).

(** A finite double as an int64: cut toward zero, and the smallest
    int64 when the result does not fit (what the conversion instruction
    of x86-64 leaves). *)
Definition to_int64 (q : Q) : Z :=
  let t := Z.quot (Qnum q) (Zpos (Qden q)) in
  if (int64_min <=? t) && (t <=? int64_max) then t else int64_min.

(** An int64 operation keeps the low 64 bits of its result. *)
Definition wrap64 (z : Z) : Z := (z + 2 ^ 63) mod 2 ^ 64 - 2 ^ 63.

End Float64.

(** ** 2 bis. Loading any table *)

Module Table.

Import Float64.

(** A cell of the table as the record source hands it back. *)
Inductive value : Type :=
| Null
| Int (z : Z)
| Float (x : float64)
| Text (s : string).

(** A row of the [transactions] table; [date] is [None] for NULL. *)
Record RawRow : Type := mkRaw {
  bill_no : option string;
  itemname : option string;
  quantity : value;
  date : option Z;
  price : value;
  customer_id : option Z;
  country : option string
}.

(** A number of an int64 or of a float64 column. *)
Inductive scalar : Type :=
| SInt (z : Z)
| SFloat (x : float64).

(** The dtype of a numeric column. *)
Inductive dtype : Type := int64 | float64_.

Definition is_int (s : scalar) : bool :=
  match s with
  | SInt _ => true
  | SFloat _ => false
  end.

(** A column of integers only is an int64 column; one NaN or one float
    makes it a float64 column. *)
Definition dtype_of (col : list scalar) : dtype :=
  if forallb is_int col then int64 else float64_.

(** A number as the column of that dtype holds it. *)
Definition as_dtype (d : dtype) (s : scalar) : scalar :=
  match d, s with
  | float64_, SInt z => SFloat (of_int z)
  | _, _ => s
  end.

(** [Series.fillna(0)], on one number. *)
Definition fillna0 (s : scalar) : scalar :=
  match s with
  | SFloat NaN => SFloat (Finite 0)
  | _ => s
  end.

Inductive error : Type := IntCastingNaNError.

(** [Series.astype(int)], on one number: what is not finite cannot be
    converted. *)
Definition astype_int (s : scalar) : error + Z :=
  match s with
  | SInt z => inr z
  | SFloat (Finite q) => inr (to_int64 q)
  | SFloat _ => inl IntCastingNaNError
  end.

(** [int64 * int64] and [int64 * float64], on one row. *)
Definition times (n : Z) (x : scalar) : scalar :=
  match x with
  | SInt p => SInt (wrap64 (n * p))
  | SFloat y => SFloat (mul (of_int n) y)
  end.

(** A row of the frame [load_data] returns; a missing date ([NaT]) and
    the fields derived from it are [None]. *)
Record Transaction : Type := mkTransaction {
  BillNo : option string;
  Itemname : option string;
  Quantity : Z;
  Date : option Z;
  Price : scalar;
  CustomerID : option Z;
  Country : option string;
  Revenue : scalar;
  InvoiceDate : option Z;
  InvoiceMonth : option Z;
  Hour : option Z;
  Weekday : option string
}.

(** A function on each element, failing where the first element
    fails. *)
Fixpoint traverse {A B} (f : A -> error + B) (l : list A)
  : error + list B :=
  match l with
  | [] => inr []
  | x :: l' =>
      match f x with
      | inl e => inl e
      | inr y =>
          match traverse f l' with
          | inl e => inl e
          | inr ys => inr (y :: ys)
          end
      end
  end.

Section Load.

(** How pandas reads a string: an integer, a float, or NaN when it is
    not a number. *)
Variable parse_numeric : string -> scalar.

(** [pd.to_numeric(_, errors="coerce")], on one cell. *)
Definition to_numeric (v : value) : scalar :=
  match v with
  | Null => SFloat NaN
  | Int z => SInt z
  | Float x => SFloat x
  | Text s => parse_numeric s
  end.

(** The column assignments of [load_data] on one row, given the dtypes
    [to_numeric] gives the Quantity and Price columns. *)
Definition load_row (quantity_dtype price_dtype : dtype) (r : RawRow)
  : error + Transaction :=
  let Date := date r in
  match astype_int
          (fillna0 (as_dtype quantity_dtype (to_numeric (quantity r)))) with
  | inl e => inl e
  | inr Quantity =>
      let Price := as_dtype price_dtype (to_numeric (price r)) in
      inr {| BillNo := bill_no r;
             Itemname := itemname r;
             Quantity := Quantity;
             Date := Date;
             Price := Price;
             CustomerID := customer_id r;
             Country := country r;
             Revenue := times Quantity Price;
             InvoiceDate := option_map dt_date Date;
             InvoiceMonth := option_map to_month_start Date;
             Hour := option_map dt_hour Date;
             Weekday := option_map dt_day_name Date |}
  end.

(** The frame, or the exception [astype(int)] raises when a Quantity is
    infinite. *)
Definition load_data (table : list RawRow) : error + list Transaction :=
  let quantity_dtype :=
    dtype_of (map (fun r => to_numeric (quantity r)) table) in
  let price_dtype :=
    dtype_of (map (fun r => to_numeric (price r)) table) in
  traverse (load_row quantity_dtype price_dtype) table.

End Load.

(** A value is missing. *)
Definition isna (s : scalar) : bool :=
  match s with
  | SFloat NaN => true
  | _ => false
  end.

Definition is_infinite (s : scalar) : bool :=
  match s with
  | SFloat (Infinite _) => true
  | _ => false
  end.

End Table.

(** ** Streamlit widgets and messages *)

Module Streamlit.

(** The texts the application shows, one constructor per call site. *)
Inductive text : Type :=
| NoData                   (* "Aucune donnee disponible." *)
| NoRowsAfterPeriodCountry (* "Aucune ligne apres filtres periode et pays." *)
| AllQuantityEqual (q : Z) (* "Toutes les lignes ont Quantity = {q}." *)
| NoProductData            (* "Aucune donnee disponible pour les produits ..." *)
| NoProduct                (* "Aucun produit apres filtrage." *)
| OneProduct               (* "Un seul produit disponible ..." *)
| NoBasketData             (* "Aucune donnee disponible pour l'analyse des paniers ..." *)
| NoCountryData            (* "Aucune donnee disponible pour la repartition ..." *)
| NoCountry                (* "Aucun pays trouve apres filtrage." *)
| OneCountry               (* "Un seul pays disponible ..." *)
| NothingLoaded.           (* "Aucune donnee chargee depuis la base de donnees." *)

(** [st.warning], [st.info], [st.error]. *)
Inductive message : Type :=
| warning (t : text)
| info (t : text)
| error (t : text).

(** What [st.date_input] returns: a tuple of dates or one date. *)
Inductive date_input_value : Type :=
| DateTuple (ds : list Z)
| DateSingle (d : Z).

Inductive granularity : Type := Jour | Mois.
Inductive ranking : Type := QuantiteVendue | ChiffreAffaires.

(** The value the user left in each keyed widget; [None] when the
    widget was not touched and shows its default. *)
Record Session : Type := mkSession {
  periode_filtre : option date_input_value;
  filtre_pays : option (list string);
  filtre_quantite : option Z;
  freq_radio : option granularity;
  top_mode : option ranking;
  top_n_slider : option Z;
  top_countries_slider : option Z
}.

Definition date_input (value : Z * Z) (user : option date_input_value)
  : date_input_value :=
  match user with
  | None => DateTuple [fst value; snd value]
  | Some v => v
  end.

(** A multiselect returns options only. *)
Definition multiselect (options default : list string)
    (user : option (list string)) : list string :=
  match user with
  | None => default
  | Some sel => filter (fun c => mem c options) sel
  end.

(** A slider returns the value it holds when that lies between its
    bounds.  A value outside them was left in a slider with other
    bounds, which Streamlit takes for another widget: the slider then
    shows its default. *)
Definition slider (min_value max_value value : Z) (user : option Z) : Z :=
  match user with
  | None => value
  | Some v =>
      if (min_value <=? v) && (v <=? max_value) then v else value
  end.

(** A radio returns its first option until the user picks another. *)
Definition radio {A} (first : A) (user : option A) : A :=
  match user with
  | None => first
  | Some v => v
  end.

End Streamlit.

Import Streamlit.

(** ** Exceptions *)

Inductive exn : Type := IndexError | ValueError.

(** [t[0]] on a tuple. *)
Definition item0 {A} (t : list A) : exn + A :=
  match t with
  | [] => inl IndexError
  | a :: _ => inr a
  end.

(** [int(x)] on the result of [min()]/[max()]: a missing value cannot be
    converted. *)
Definition int_of (x : option Z) : exn + Z :=
  match x with
  | None => inl ValueError
  | Some z => inr z
  end.

(** ** 3. Filters *)

(** The column assignment [df["InvoiceDate"] = values], row by row. *)
Definition set_InvoiceDate (r : Transaction) (d : Z) : Transaction :=
  {| BillNo := BillNo r; Itemname := Itemname r; Quantity := Quantity r;
     Date := Date r; Price := Price r; CustomerID := CustomerID r;
     Country := Country r; Revenue := Revenue r;
     InvoiceDate := d;
     InvoiceMonth := InvoiceMonth r; Hour := Hour r; Weekday := Weekday r |}.

(** One call of [filter_data]: the frame the caller passed in as it is
    when the call ends, what was written to the sidebar, and the frame
    returned or the exception raised. *)
Record filter_run : Type := mkRun {
  source_after : DataFrame;
  sidebar : list message;
  returned : exn + DataFrame
}.

(** The bounds read from the date widget. *)
Definition date_bounds (date_range : date_input_value) : exn + (Z * Z) :=
  match date_range with
  | DateTuple ds =>
      match ds with
      | [start_date; end_date] => inr (start_date, end_date)
      | _ => match item0 ds with
             | inl e => inl e
             | inr d => inr (d, d)
             end
      end
  | DateSingle d => inr (d, d)
  end.

Definition in_period (start_date end_date : Z) (r : Transaction) : bool :=
  (start_date <=? InvoiceDate r) && (InvoiceDate r <=? end_date).

(** The quantity stage, reached with a frame that passed the emptiness
    test. *)
Definition quantity_stage (ui : Session) (filtered : DataFrame)
  : list message * (exn + DataFrame) :=
  match int_of (series_min (map Quantity filtered)) with
  | inl e => ([], inl e)
  | inr min_quantity =>
    match int_of (series_max (map Quantity filtered)) with
    | inl e => ([], inl e)
    | inr max_quantity =>
      let '(msgs, quantity_threshold) :=
        if min_quantity =? max_quantity
        then ([info (AllQuantityEqual min_quantity)], min_quantity)
        else ([], slider min_quantity max_quantity min_quantity
                         (filtre_quantite ui)) in
      (msgs, inr (filter (fun r => quantity_threshold <=? Quantity r)
                         filtered))
    end
  end.

Definition filter_data (today : Z) (ui : Session) (df : DataFrame)
  : filter_run :=
  if empty df then
    {| source_after := df; sidebar := [warning NoData]; returned := inr df |}
  else
    (* InvoiceDate holds dates, not datetime64: the column is rewritten
       in the caller's frame *)
    let df :=
      map (fun r => set_InvoiceDate r
                      (dt_date (date_to_datetime (InvoiceDate r)))) df in
    let min_date :=
      match series_min (map InvoiceDate df) with
      | Some d => d
      | None => today
      end in
    let max_date :=
      match series_max (map InvoiceDate df) with
      | Some d => d
      | None => today
      end in
    let date_range := date_input (min_date, max_date) (periode_filtre ui) in
    match date_bounds date_range with
    | inl e => {| source_after := df; sidebar := []; returned := inl e |}
    | inr (start_date, end_date) =>
      let filtered := filter (in_period start_date end_date) df in
      let countries := sorted (unique (dropna (map Country filtered))) in
      let selected_countries :=
        multiselect countries countries (filtre_pays ui) in
      let filtered :=
        filter (fun r => isin (Country r) selected_countries) filtered in
      if empty filtered then
        {| source_after := df;
           sidebar := [warning NoRowsAfterPeriodCountry];
           returned := inr filtered |}
      else
        let '(msgs, res) := quantity_stage ui filtered in
        {| source_after := df; sidebar := msgs; returned := res |}
    end.

(** ** Sorting a frame by a column *)

(** What pandas promises of [sort_values]: the rows come back permuted
    and in order.  [sort_values] is called here with its default
    [kind="quicksort"], for which pandas promises nothing on the order
    of rows with equal keys (only [kind="mergesort"] and [kind="stable"]
    keep them in input order), so the aggregations below are stated for
    any sort that keeps the general promise. *)
Class SortKind : Type := mkSortKind {
  sort_by : forall A : Type, (A -> A -> bool) -> list A -> list A;
  sort_by_perm :
    forall (A : Type) (le : A -> A -> bool) (l : list A),
      Permutation l (sort_by le l);
  sort_by_sorted :
    forall (A : Type) (le : A -> A -> bool),
      (forall x y, le x y = true \/ le y x = true) ->
      (forall x y z, le x y = true -> le y z = true -> le x z = true) ->
      forall l : list A,
        StronglySorted (fun x y => le x y = true) (sort_by le l)
}.

Section Sorts.

Variable A : Type.
Variable le : A -> A -> bool.

(** Insertion before the first row that may follow: equal keys stay
    in input order. *)
Fixpoint insert_before (x : A) (l : list A) : list A :=
  match l with
  | [] => [x]
  | y :: l' => if le x y then x :: l else y :: insert_before x l'
  end.

Fixpoint sort_stable (l : list A) : list A :=
  match l with
  | [] => []
  | x :: l' => insert_before x (sort_stable l')
  end.

Lemma insert_before_perm x l : Permutation (x :: l) (insert_before x l).
Proof.
  induction l as [|y l IH]; simpl; [reflexivity|].
  destruct (le x y); [reflexivity|].
  rewrite perm_swap. now apply perm_skip.
Qed.

Lemma sort_stable_perm l : Permutation l (sort_stable l).
Proof.
  induction l as [|x l IH]; simpl; [constructor|].
  rewrite <- insert_before_perm. now apply perm_skip.
Qed.

Hypothesis le_total : forall x y, le x y = true \/ le y x = true.
Hypothesis le_trans :
  forall x y z, le x y = true -> le y z = true -> le x z = true.

Let ordered := StronglySorted (fun x y => le x y = true).

Lemma insert_before_sorted x l : ordered l -> ordered (insert_before x l).
Proof.
  unfold ordered.
  induction l as [|y l IH]; simpl; intros Hs.
  - constructor; [constructor | constructor].
  - inversion Hs as [|? ? Hl Hy]; subst.
    destruct (le x y) eqn:E.
    + constructor; [assumption|].
      constructor; [assumption|].
      rewrite Forall_forall in *. intros z Hz. eauto.
    + constructor; [now apply IH|].
      rewrite Forall_forall in *. intros z Hz.
      apply Permutation_in with (l' := x :: l) in Hz;
        [|symmetry; apply insert_before_perm].
      destruct Hz as [<-|Hz]; [|now apply Hy].
      destruct (le_total x y); congruence.
Qed.

Lemma sort_stable_sorted l : ordered (sort_stable l).
Proof.
  induction l as [|x l IH]; simpl;
    [constructor | now apply insert_before_sorted].
Qed.

End Sorts.

(** An insertion sort, which keeps equal keys in input order as
    [kind="stable"] does. *)
Definition stable : SortKind :=
  {| sort_by := sort_stable;
     sort_by_perm := sort_stable_perm;
     sort_by_sorted := sort_stable_sorted |}.


(** ** 4. Dashboard sections *)

Module Kpi.

(** The "Clients" metric: a count, or the text "N/A". *)
Inductive clients : Type :=
| Count (n : nat)
| NA.

Record t : Type := mk {
  Transactions : nat;
  Articles : nat;
  Clients : clients;
  Revenue : Q
}.

End Kpi.

(** [np.isnan] of a Python [int], which is what [nunique()] returns: an
    integer is never NaN. *)
Definition np_isnan (n : nat) : bool := false.

Definition kpi_section (df : DataFrame) : Kpi.t :=
  let n_transactions := nunique (map BillNo df) in
  let n_items := nunique (map Itemname df) in
  let n_customers := nunique (map CustomerID df) in
  let total_revenue := sum_float (map Revenue df) in
  {| Kpi.Transactions := n_transactions;
     Kpi.Articles := n_items;
     Kpi.Clients :=
       if negb (np_isnan n_customers) then Kpi.Count n_customers
       else Kpi.NA;
     Kpi.Revenue := total_revenue |}.

(** The table [ts] of [transactions_over_time]: bucket and number of
    distinct bills. *)
Definition transactions_over_time (ui : Session) (df : DataFrame)
  : list (Z * nat) :=
  let freq := radio Jour (freq_radio ui) in
  match freq with
  | Jour =>
      map (fun kg => (fst kg, nunique (map BillNo (snd kg))))
          (groupby (fun r => Some (InvoiceDate r)) df)
  | Mois =>
      map (fun kg => (fst kg, nunique (map BillNo (snd kg))))
          (groupby (fun r => Some (InvoiceMonth r)) df)
  end.

(** Orders handed to [sort_values]: [le a b] when [a] may come before
    [b]. *)
Definition descending_int {A} (col : A -> Z) (a b : A) : bool :=
  col b <=? col a.

Definition descending_float {A} (col : A -> Q) (a b : A) : bool :=
  Qle_bool (col b) (col a).

Definition ascending_nat {A} (col : A -> nat) (a b : A) : bool :=
  Nat.leb (col a) (col b).

Definition descending_nat {A} (col : A -> nat) (a b : A) : bool :=
  Nat.leb (col b) (col a).

Module Products.

(** [df.groupby("Itemname")]. *)
Definition groups (df : DataFrame) : list (string * DataFrame) :=
  groupby Itemname df.

Record row : Type := mk {
  Itemname : string;
  quantity_sold : Z;
  revenue : Q;
  n_transactions : nat
}.

(** [.agg(...).reset_index()] of the groups. *)
Definition agg (df : DataFrame) : list row :=
  map (fun kg =>
         {| Itemname := fst kg;
            quantity_sold := sum_int (map Quantity (snd kg));
            revenue := sum_float (map Revenue (snd kg));
            n_transactions := nunique (map BillNo (snd kg)) |})
      (groups df).

End Products.

(** Messages shown, and the table [top] when there is one. *)
Definition top_products `{SortKind} (ui : Session) (df : DataFrame)
  : list message * option (list Products.row) :=
  if empty df then ([info NoProductData], None)
  else
    let mode := radio QuantiteVendue (top_mode ui) in
    let agg := Products.agg df in
    let agg :=
      match mode with
      | QuantiteVendue =>
          sort_by (descending_int Products.quantity_sold) agg
      | ChiffreAffaires =>
          sort_by (descending_float Products.revenue) agg
      end in
    let n_products := Z.of_nat (length agg) in
    if n_products =? 0 then ([info NoProduct], None)
    else
      let '(msgs, top_n) :=
        if n_products =? 1 then ([info OneProduct], 1)
        else ([], slider 1 n_products (Z.min 10 n_products)
                         (top_n_slider ui)) in
      (msgs, Some (head top_n agg)).

Module Baskets.

(** [df.groupby("BillNo")]. *)
Definition groups (df : DataFrame) : list (string * DataFrame) :=
  groupby BillNo df.

Record row : Type := mk {
  BillNo : string;
  basket_size : nat;
  quantity_total : Z;
  revenue : Q
}.

(** [.agg(...)] of the groups. *)
Definition agg (df : DataFrame) : list row :=
  map (fun kg =>
         {| BillNo := fst kg;
            basket_size := nunique (map Itemname (snd kg));
            quantity_total := sum_int (map Quantity (snd kg));
            revenue := sum_float (map Revenue (snd kg)) |})
      (groups df).

(** The three metrics and the table [size_counts]. *)
Record stats : Type := mkStats {
  mean_basket_size : option Q;
  mean_quantity_total : option Q;
  mean_revenue : option Q;
  size_counts : list (nat * nat)
}.

End Baskets.

(** [Series.value_counts()]: each distinct value with its number of
    occurrences, most frequent first. *)
Definition value_counts `{SortKind} (s : list nat) : list (nat * nat) :=
  sort_by (descending_nat snd)
          (map (fun v => (v, count_occ Nat.eq_dec s v)) (unique s)).

Definition basket_analysis `{SortKind} (df : DataFrame)
  : list message * option Baskets.stats :=
  if empty df then ([info NoBasketData], None)
  else
    let baskets := Baskets.agg df in
    let size_counts :=
      sort_by (ascending_nat fst)
              (value_counts (map Baskets.basket_size baskets)) in
    ([],
     Some {| Baskets.mean_basket_size :=
               mean (map (fun b => inject_Z (Z.of_nat (Baskets.basket_size b)))
                         baskets);
             Baskets.mean_quantity_total :=
               mean (map (fun b => inject_Z (Baskets.quantity_total b))
                         baskets);
             Baskets.mean_revenue := mean (map Baskets.revenue baskets);
             Baskets.size_counts := size_counts |}).

Module Countries.

(** [df.groupby("Country")]. *)
Definition groups (df : DataFrame) : list (string * DataFrame) :=
  groupby Country df.

Record row : Type := mk {
  Country : string;
  transactions : nat;
  revenue : Q
}.

(** [.agg(...).reset_index()] of the groups. *)
Definition agg (df : DataFrame) : list row :=
  map (fun kg =>
         {| Country := fst kg;
            transactions := nunique (map BillNo (snd kg));
            revenue := sum_float (map Revenue (snd kg)) |})
      (groups df).

End Countries.

(** Messages shown and, when there is one, the charted table [top] with
    the full table [country_stats]. *)
Definition country_analysis `{SortKind} (ui : Session) (df : DataFrame)
  : list message * option (list Countries.row * list Countries.row) :=
  if empty df then ([info NoCountryData], None)
  else
    let country_stats :=
      sort_by (descending_float Countries.revenue) (Countries.agg df) in
    let n_countries := Z.of_nat (length country_stats) in
    if n_countries =? 0 then ([info NoCountry], None)
    else
      let '(msgs, top_countries) :=
        if n_countries =? 1 then ([info OneCountry], 1)
        else ([], slider 1 n_countries (Z.min 10 n_countries)
                         (top_countries_slider ui)) in
      (msgs, Some (head top_countries country_stats, country_stats)).

Module Heat.

Record row : Type := mk {
  Weekday : option string;
  Hour : Z;
  transactions : nat
}.

End Heat.

Definition weekday_order : list string :=
  ["Monday"; "Tuesday"; "Wednesday"; "Thursday"; "Friday"; "Saturday";
   "Sunday"]%string.

(** [pd.Categorical(values, categories=...)] on one value: a value that
    is not a category becomes missing. *)
Definition categorical (categories : list string) (v : string)
  : option string :=
  if mem v categories then Some v else None.

(** The table [heat] of [temporal_pattern]. *)
Definition temporal_pattern (df : DataFrame) : list Heat.row :=
  map (fun kg =>
         {| Heat.Weekday := categorical weekday_order (fst (fst kg));
            Heat.Hour := snd (fst kg);
            Heat.transactions := nunique (map BillNo (snd kg)) |})
      (groupby (fun r => Some (Weekday r, Hour r)) df).

(** ** 5. Main application *)

Record page : Type := mkPage {
  page_sidebar : list message;
  lines_after_filter : nat;
  page_kpi : Kpi.t;
  page_time : list (Z * nat);
  page_products : list message * option (list Products.row);
  page_baskets : list message * option Baskets.stats;
  page_countries :
    list message * option (list Countries.row * list Countries.row);
  page_heat : list Heat.row;
  page_preview : DataFrame
}.

Inductive main_result : Type :=
| Stopped (m : message)
| Raised (e : exn)
| Shown (p : page).

Definition main `{SortKind} (parse_numeric : string -> option Q)
    (today : Z) (ui : Session) (table : list RawRow) : main_result :=
  let df := load_data parse_numeric table in
  if empty df then Stopped (error NothingLoaded)
  else
    let run := filter_data today ui df in
    match returned run with
    | inl e => Raised e
    | inr filtered_df =>
        Shown {| page_sidebar := sidebar run;
                 lines_after_filter := length filtered_df;
                 page_kpi := kpi_section filtered_df;
                 page_time := transactions_over_time ui filtered_df;
                 page_products := top_products ui filtered_df;
                 page_baskets := basket_analysis filtered_df;
                 page_countries := country_analysis ui filtered_df;
                 page_heat := temporal_pattern filtered_df;
                 page_preview := head 100 filtered_df |}
    end.

(** ** Parts of the functions above, named for the statements *)

(** The default value of the date widget. *)
Definition period_of (today : Z) (df : DataFrame) : Z * Z :=
  (match series_min (map InvoiceDate df) with Some d => d | None => today end,
   match series_max (map InvoiceDate df) with Some d => d | None => today end).

(** The list passed to [isin]. *)
Definition selected_in (ui : Session) (filtered : DataFrame) : list string :=
  let countries := sorted (unique (dropna (map Country filtered))) in
  multiselect countries countries (filtre_pays ui).

(** The frame after the period and country filters. *)
Definition period_country_view (ui : Session) (b : Z * Z) (df : DataFrame)
  : DataFrame :=
  let filtered := filter (in_period (fst b) (snd b)) df in
  filter (fun r => isin (Country r) (selected_in ui filtered)) filtered.

(** The threshold of the quantity filter. *)
Definition threshold_of (ui : Session) (min_quantity max_quantity : Z) : Z :=
  if min_quantity =? max_quantity then min_quantity
  else slider min_quantity max_quantity min_quantity (filtre_quantite ui).

(** The time fields of a row are those [load_data] derives from its
    Date. *)
Definition derived (t : Transaction) : Prop :=
  Hour t = dt_hour (Date t) /\ Weekday t = dt_day_name (Date t).

(** The sum a mean divides. *)
Definition total (s : list Q) : Q := fold_right Qplus 0%Q s.

(** The number of rows shown, as the slider of [top_products] and of
    [country_analysis] gives it among [n] rows: the number held when it
    is between 1 and [n], and 10 or [n], whichever is smaller, when
    nothing is held or what is held is out of these bounds. *)
Definition shown_rows (n : Z) (user : option Z) : Z :=
  slider 1 n (Z.min 10 n) user.

(** The bucket of a row in [transactions_over_time]. *)
Definition bucket_of (ui : Session) (r : Transaction) : Z :=
  match radio Jour (freq_radio ui) with
  | Jour => InvoiceDate r
  | Mois => InvoiceMonth r
  end.

(** What one row of a loaded frame holds. *)
Definition loaded (parse_numeric : string -> Table.scalar)
    (r : Table.RawRow) (t : Table.Transaction) : Prop :=
  (Table.isna (Table.to_numeric parse_numeric (Table.quantity r)) = true ->
   Table.Quantity t = 0) /\
  Table.isna (Table.Price t)
    = Table.isna (Table.to_numeric parse_numeric (Table.price r)) /\
  Table.Revenue t = Table.times (Table.Quantity t) (Table.Price t) /\
  (Table.isna (Table.Revenue t) = true <->
   Table.isna (Table.Price t) = true \/
   (Table.is_infinite (Table.Price t) = true /\ Table.Quantity t = 0)) /\
  Table.is_infinite (Table.to_numeric parse_numeric (Table.quantity r))
    = false.

(** A cell, a row and a reader of strings of [load_data] in section 2,
    as those of [Table.load_data]. *)
Definition plain_value (c : cell) : Table.value :=
  match c with
  | CNull => Table.Null
  | CInt z => Table.Int z
  | CFloat q => Table.Float (Float64.Finite q)
  | CText s => Table.Text s
  end.

Definition plain_row (r : RawRow) : Table.RawRow :=
  Table.mkRaw (bill_no r) (itemname r) (plain_value (quantity r))
              (Some (date r)) (plain_value (price r)) (customer_id r)
              (country r).

Definition plain_reader (parse_numeric : string -> option Q) (s : string)
  : Table.scalar :=
  match parse_numeric s with
  | Some q => Table.SFloat (Float64.Finite q)
  | None => Table.SFloat Float64.NaN
  end.

(** An integer cell that a float64 holds as it is. *)
Definition within_float64 (c : cell) : Prop :=
  match c with
  | CInt z => Z.abs z <= 2 ^ 53
  | _ => True
  end.

(** A row [t] of [load_data] in section 2 and the row [t'] that
    [Table.load_data] makes of the same raw row: the same fields, and
    the Revenue of [t] rounded to float64 (or the int64 product, in a
    Price column of integers). *)
Definition agrees (t : Transaction) (t' : Table.Transaction) : Prop :=
  Table.BillNo t' = BillNo t /\
  Table.Itemname t' = Itemname t /\
  Table.Quantity t' = Quantity t /\
  Table.Date t' = Some (Date t) /\
  Table.CustomerID t' = CustomerID t /\
  Table.Country t' = Country t /\
  Table.InvoiceDate t' = Some (InvoiceDate t) /\
  Table.InvoiceMonth t' = Some (InvoiceMonth t) /\
  Table.Hour t' = Some (Hour t) /\
  Table.Weekday t' = Some (Weekday t) /\
  match Price t with
  | None =>
      Revenue t = None /\
      Table.Price t' = Table.SFloat Float64.NaN /\
      Table.Revenue t' = Table.SFloat Float64.NaN
  | Some p =>
      exists x,
        Revenue t = Some x /\
        ((Table.Price t' = Table.SFloat (Float64.Finite p) /\
          Table.Revenue t' = Table.SFloat (Float64.round64 x)) \/
         (exists z,
            p = inject_Z z /\
            Table.Price t' = Table.SInt z /\
            Table.Revenue t'
              = Table.SInt (Float64.wrap64 (Quantity t * z))))
  end.

(** The rows of the (Weekday, Hour) cell of a row. *)
Definition same_cell (r r' : Transaction) : bool :=
  String.eqb (Weekday r') (Weekday r) && (Hour r' =? Hour r).

(** [Series.notna()], on one value. *)
Definition notna {A} (v : option A) : bool :=
  match v with
  | Some _ => true
  | None => false
  end.

(** ** Sample data *)

Module Sample.

(** A reader of strings that recognises no number. *)
Definition no_number (s : string) : option Q := None.

Definition at_hour (y m d h : Z) : Z :=
  (first_of_month y m + d - 1) * ns_per_day + h * ns_per_hour.

Definition mug_b1 : RawRow :=
  mkRaw (Some "B1"%string) (Some "Mug"%string) (CInt 2)
        (at_hour 2021 1 5 10) (CFloat 3) (Some 1) (Some "UK"%string).

Definition plate_b1 : RawRow :=
  mkRaw (Some "B1"%string) (Some "Plate"%string) (CInt 1)
        (at_hour 2021 1 5 10) (CFloat 5) (Some 1) (Some "UK"%string).

Definition mug_b2 : RawRow :=
  mkRaw (Some "B2"%string) (Some "Mug"%string) (CInt 1)
        (at_hour 2021 2 1 23) (CFloat 3) None (Some "FR"%string).

(** A row whose quantity and price are not numbers. *)
Definition unreadable : RawRow :=
  mkRaw (Some "B3"%string) (Some "Cup"%string) (CText "two")
        (at_hour 2021 2 2 9) (CText "n/a") None (Some "FR"%string).

(** A row without a country. *)
Definition stateless : RawRow :=
  mkRaw (Some "B4"%string) (Some "Cup"%string) (CInt 4)
        (at_hour 2021 2 3 9) (CFloat 2) None None.

(** A second bill with as many plates as the first has mugs. *)
Definition plate_b2 : RawRow :=
  mkRaw (Some "B2"%string) (Some "Plate"%string) (CInt 2)
        (at_hour 2021 2 1 23) (CFloat 5) None (Some "FR"%string).

Definition table : list RawRow := [mug_b1; plate_b1; mug_b2].

(** Two products sold in equal quantity. *)
Definition tie_table : list RawRow := [mug_b1; plate_b2].

Definition df : DataFrame := load_data no_number table.

Definition tie_df : DataFrame := load_data no_number tie_table.





(** A reader of strings that finds no number in any. *)
Definition not_a_number (s : string) : Table.scalar :=
  Table.SFloat Float64.NaN.

(** A row with an unreadable quantity and an infinite price. *)
Definition priceless : Table.RawRow :=
  Table.mkRaw (Some "B5"%string) (Some "Cup"%string) (Table.Text "two")
              (Some (at_hour 2021 2 2 9))
              (Table.Float (Float64.Infinite false)) None
              (Some "FR"%string).

(** A row with an infinite quantity. *)
Definition endless : Table.RawRow :=
  Table.mkRaw (Some "B6"%string) (Some "Cup"%string)
              (Table.Float (Float64.Infinite false))
              (Some (at_hour 2021 2 2 9)) (Table.Float (Float64.Finite 2))
              None (Some "FR"%string).

(** Nothing touched in the sidebar. *)
Definition untouched : Session :=
  mkSession None None None None None None None.

(** January and February 2021 up to the 1st, the UK, two items or more. *)
Definition chosen : Session :=
  mkSession (Some (DateTuple [18632; 18659])) (Some ["UK"%string]) (Some 2)
            None None None None.

End Sample.

(** * Properties *)

(** ** Facts on the pandas primitives *)

Section PandasFacts.

Context {A : Type} `{Eq A}.

Lemma eqb_true_iff (x y : A) : eqb x y = true <-> x = y.
Proof.
  unfold eqb. destruct (eq_dec x y); split; congruence.
Qed.

Lemma mem_true_iff (x : A) (l : list A) : mem x l = true <-> In x l.
Proof.
  unfold mem. destruct (in_dec eq_dec x l); split; congruence.
Qed.

Lemma mem_false_iff (x : A) (l : list A) : mem x l = false <-> ~ In x l.
Proof.
  unfold mem. destruct (in_dec eq_dec x l); split; congruence.
Qed.

Lemma dropna_In (a : A) (s : list (option A)) :
  In a (dropna s) <-> In (Some a) s.
Proof.
  induction s as [|[b|] s IH]; simpl.
  - tauto.
  - rewrite IH. split; intros [E|E]; auto; left; congruence.
  - rewrite IH. split; [auto | intros [E|E]; [discriminate | auto]].
Qed.

Lemma unique_from_In (x : A) (l seen : list A) :
  In x (unique_from seen l) <-> In x l /\ ~ In x seen.
Proof.
  revert seen. induction l as [|y l IH]; intros seen; simpl.
  - tauto.
  - destruct (mem y seen) eqn:E.
    + apply mem_true_iff in E. rewrite IH.
      split; [tauto|]. intros [[->|Hx] Hn]; tauto.
    + apply mem_false_iff in E. simpl. rewrite IH. simpl.
      destruct (eq_dec y x) as [->|Hne]; [tauto|].
      split; [intros [?|[? ?]]; tauto | intros [[?|?] ?]; tauto].
Qed.

Lemma unique_In (x : A) (l : list A) : In x (unique l) <-> In x l.
Proof.
  unfold unique. rewrite unique_from_In. simpl. tauto.
Qed.

Lemma unique_from_NoDup (l seen : list A) : NoDup (unique_from seen l).
Proof.
  revert seen. induction l as [|y l IH]; intros seen; simpl.
  - constructor.
  - destruct (mem y seen); [apply IH|].
    constructor; [|apply IH].
    rewrite unique_from_In. simpl. tauto.
Qed.

Lemma unique_NoDup (l : list A) : NoDup (unique l).
Proof. apply unique_from_NoDup. Qed.

Lemma unique_nil_inv (l : list A) : unique l = [] -> l = [].
Proof.
  destruct l as [|x l]; [reflexivity|].
  unfold unique. simpl. discriminate.
Qed.

Lemma dropna_map_Some {R} (f : R -> A) (df : list R) :
  dropna (map (fun r => Some (f r)) df) = map f df.
Proof.
  induction df as [|r df IH]; simpl; [reflexivity | now rewrite IH].
Qed.

Lemma isin_true_iff (v : option A) (values : list A) :
  isin v values = true <-> exists a, v = Some a /\ In a values.
Proof.
  destruct v as [a|]; simpl.
  - rewrite mem_true_iff. split; [eauto|].
    intros [b [E Hb]]. now inversion E.
  - split; [discriminate | intros [a [E _]]; discriminate].
Qed.

Context `{Ord A}.

Lemma insert_key_perm (x : A) (l : list A) :
  Permutation (x :: l) (insert_key x l).
Proof.
  induction l as [|y l IH]; simpl; [reflexivity|].
  destruct (leb x y); [reflexivity|].
  rewrite perm_swap. now apply perm_skip.
Qed.

Lemma sorted_perm (l : list A) : Permutation l (sorted l).
Proof.
  induction l as [|x l IH]; simpl; [constructor|].
  rewrite <- insert_key_perm. now apply perm_skip.
Qed.

Lemma sorted_In (x : A) (l : list A) : In x (sorted l) <-> In x l.
Proof.
  split; apply Permutation_in;
    [symmetry|]; apply sorted_perm.
Qed.

Lemma sorted_length (l : list A) : length (sorted l) = length l.
Proof. symmetry. apply Permutation_length, sorted_perm. Qed.

Lemma sorted_NoDup (l : list A) : NoDup l -> NoDup (sorted l).
Proof. apply Permutation_NoDup, sorted_perm. Qed.

(** The keys of [groupby]: the distinct non-missing keys of the frame,
    each once. *)
Lemma groupby_keys {R} (key : R -> option A) (df : list R) :
  map fst (groupby key df) = sorted (unique (dropna (map key df))).
Proof.
  unfold groupby. rewrite map_map. simpl. apply map_id.
Qed.

Lemma groupby_keys_NoDup {R} (key : R -> option A) (df : list R) :
  NoDup (map fst (groupby key df)).
Proof.
  rewrite groupby_keys. apply sorted_NoDup, unique_NoDup.
Qed.

Lemma groupby_key_In {R} (key : R -> option A) (df : list R) (k : A) :
  In k (map fst (groupby key df)) <-> exists r, In r df /\ key r = Some k.
Proof.
  rewrite groupby_keys, sorted_In, unique_In, dropna_In, in_map_iff.
  split; intros [r [? ?]]; exists r; auto.
Qed.

Lemma groupby_length {R} (key : R -> option A) (df : list R) :
  length (groupby key df) = nunique (map key df).
Proof.
  unfold groupby, nunique. now rewrite length_map, sorted_length.
Qed.

Lemma groupby_In_inv {R} (key : R -> option A) (df : list R) kg :
  In kg (groupby key df) ->
  snd kg = filter (fun r => eqb (key r) (Some (fst kg))) df /\
  exists r, In r df /\ key r = Some (fst kg).
Proof.
  intros Hin. split.
  - unfold groupby in Hin. apply in_map_iff in Hin.
    destruct Hin as [k [<- _]]. reflexivity.
  - apply groupby_key_In. now apply in_map.
Qed.

End PandasFacts.

Lemma filter_all {A} (p : A -> bool) (l : list A) :
  (forall x, In x l -> p x = true) -> filter p l = l.
Proof.
  induction l as [|x l IH]; simpl; intros Hall; [reflexivity|].
  rewrite (Hall x) by auto. f_equal. apply IH. auto.
Qed.

Lemma filter_filter {A} (p q : A -> bool) (l : list A) :
  filter q (filter p l) = filter (fun x => p x && q x) l.
Proof.
  induction l as [|x l IH]; simpl; [reflexivity|].
  destruct (p x); simpl; [|assumption].
  destruct (q x); [f_equal|]; assumption.
Qed.

Lemma filter_length_le {A} (p : A -> bool) (l : list A) :
  (length (filter p l) <= length l)%nat.
Proof.
  induction l as [|x l IH]; simpl; [lia|].
  destruct (p x); simpl; lia.
Qed.

(** ** Normalisation *)

Lemma traverse_Forall2 {A B} (f : A -> Table.error + B)
    (R : A -> B -> Prop) (l : list A) (l' : list B) :
  (forall x y, In x l -> f x = inr y -> R x y) ->
  Table.traverse f l = inr l' ->
  Forall2 R l l'.
Proof.
  revert l'. induction l as [|x l IH]; simpl; intros l' HR E.
  - inversion E. constructor.
  - destruct (f x) as [e|y] eqn:Ex; [discriminate|].
    destruct (Table.traverse f l) as [e|ys]; [discriminate|].
    inversion E. subst l'. constructor; [auto|].
    apply IH; [|reflexivity]. intros x' y' Hx'. apply HR. now right.
Qed.

Lemma traverse_raises {A B} (f : A -> Table.error + B)
    (l : list A) (e : Table.error) :
  Table.traverse f l = inl e -> Exists (fun x => f x = inl e) l.
Proof.
  induction l as [|x l IH]; simpl; [discriminate|].
  destruct (f x) as [e'|y] eqn:Ex.
  - intros E. inversion E. subst e'. now left.
  - destruct (Table.traverse f l) as [e'|ys]; [|discriminate].
    intros E. inversion E. subst e'. right. now apply IH.
Qed.

(** A column with a float in it is a float64 column. *)
Lemma dtype_of_float (col : list Table.scalar) (x : Float64.float64) :
  In (Table.SFloat x) col -> Table.dtype_of col = Table.float64_.
Proof.
  intros Hin. unfold Table.dtype_of.
  destruct (forallb Table.is_int col) eqn:E; [|reflexivity].
  rewrite forallb_forall in E. specialize (E _ Hin). discriminate.
Qed.

Lemma round_int_zero (z : Z) : Float64.round_int z = 0 -> z = 0.
Proof.
  unfold Float64.round_int.
  destruct (Z.abs z <=? 2 ^ 53) eqn:Esmall; [auto|].
  apply Z.leb_gt in Esmall. cbv zeta.
  set (e := Z.log2 (Z.abs z) - 52).
  set (m := Z.abs z / 2 ^ e).
  assert (Hpos : 0 < Z.abs z) by lia.
  assert (Hlog : 53 <= Z.log2 (Z.abs z))
    by (apply Z.log2_le_pow2; lia).
  assert (He : 0 <= e) by (unfold e; lia).
  assert (Hpow : 0 < 2 ^ e) by (apply Z.pow_pos_nonneg; lia).
  assert (Hm : 1 <= m).
  { unfold m. apply Z.div_le_lower_bound; [assumption|].
    rewrite Z.mul_1_r.
    transitivity (2 ^ Z.log2 (Z.abs z)).
    - apply Z.pow_le_mono_r; unfold e; lia.
    - now apply Z.log2_spec. }
  intros E. exfalso.
  assert (Hm' : 1 <= (if 2 * (Z.abs z mod 2 ^ e) <? 2 ^ e then m
                      else if 2 ^ e <? 2 * (Z.abs z mod 2 ^ e) then m + 1
                      else if Z.even m then m else m + 1))
    by (repeat match goal with
               | |- context [if ?b then _ else _] => destruct b
               end; lia).
  fold m in E.
  destruct (Z.sgn_spec z) as [[Hz Hs]|[[Hz Hs]|[Hz Hs]]];
    rewrite Hs in E; nia.
Qed.

Lemma round64_not_NaN (q : Q) : Float64.round64 q <> Float64.NaN.
Proof.
  assert (Hfinish : forall m e, Float64.finish m e <> Float64.NaN).
  { intros m e. unfold Float64.finish.
    destruct (2 ^ 1024 <=? _); discriminate. }
  assert (Hpos : forall n d, Float64.round_pos n d <> Float64.NaN)
    by (intros n d; unfold Float64.round_pos; apply Hfinish).
  unfold Float64.round64. destruct (Qnum q) as [|n|n].
  - discriminate.
  - apply Hpos.
  - specialize (Hpos (Z.pos n) (Z.pos (Qden q))).
    destruct (Float64.round_pos _ _); [discriminate | discriminate | congruence].
Qed.

(** The product of an int64 and a float64 is NaN for a NaN, and for an
    infinity times 0. *)
Lemma mul_of_int_NaN (n : Z) (y : Float64.float64) :
  Float64.mul (Float64.of_int n) y = Float64.NaN <->
  y = Float64.NaN \/ ((exists s, y = Float64.Infinite s) /\ n = 0).
Proof.
  unfold Float64.of_int. destruct y as [q|s|]; simpl.
  - split; [intros E; now apply round64_not_NaN in E|].
    intros [E|[[s E] _]]; discriminate.
  - unfold Float64.is_zero. simpl.
    destruct (Float64.round_int n =? 0) eqn:E.
    + apply Z.eqb_eq, round_int_zero in E.
      split; [intros _; right; split; [eauto | assumption] | reflexivity].
    + apply Z.eqb_neq in E. split; [discriminate|].
      intros [E'|[_ ->]]; [discriminate|]. now elim E.
  - split; [now left | reflexivity].
Qed.

Lemma isna_SFloat (x : Float64.float64) :
  Table.isna (Table.SFloat x) = true <-> x = Float64.NaN.
Proof.
  destruct x; simpl; split; congruence.
Qed.

Lemma is_infinite_SFloat (x : Float64.float64) :
  Table.is_infinite (Table.SFloat x) = true <->
  exists s, x = Float64.Infinite s.
Proof.
  destruct x as [q|s|]; simpl; split; try discriminate; eauto;
    intros [s' E]; discriminate.
Qed.

(** The Quantity of a row, when [astype(int)] does not raise. *)
Lemma quantity_converted (d : Table.dtype) (s : Table.scalar) (n : Z) :
  Table.astype_int (Table.fillna0 (Table.as_dtype d s)) = inr n ->
  (Table.isna s = true -> n = 0) /\ Table.is_infinite s = false.
Proof.
  destruct s as [z|[q|neg|]]; simpl.
  - intros _. split; [discriminate | reflexivity].
  - destruct d; simpl; intros _; split; try discriminate; reflexivity.
  - destruct d; discriminate.
  - destruct d; simpl; intros E; inversion E;
      split; reflexivity.
Qed.

(** [astype(int)] raises on an infinity only. *)
Lemma quantity_raises (d : Table.dtype) (s : Table.scalar)
    (e : Table.error) :
  Table.astype_int (Table.fillna0 (Table.as_dtype d s)) = inl e ->
  Table.is_infinite s = true.
Proof.
  destruct s as [z|[q|neg|]]; destruct d; simpl;
    try discriminate; reflexivity.
Qed.

(** The Price and the Revenue of a row. *)
Lemma price_and_revenue (d : Table.dtype) (s : Table.scalar) (n : Z) :
  Table.isna (Table.as_dtype d s) = Table.isna s /\
  (Table.isna (Table.times n (Table.as_dtype d s)) = true <->
   Table.isna (Table.as_dtype d s) = true \/
   (Table.is_infinite (Table.as_dtype d s) = true /\ n = 0)).
Proof.
  split; [destruct d, s as [z|[]]; reflexivity|].
  destruct (Table.as_dtype d s) as [p|y]; cbn [Table.times].
  - simpl. split; [discriminate | intros [E|[E _]]; discriminate].
  - rewrite !isna_SFloat, is_infinite_SFloat. apply mul_of_int_NaN.
Qed.

Lemma load_row_loaded (parse_numeric : string -> Table.scalar)
    (quantity_dtype price_dtype : Table.dtype)
    (r : Table.RawRow) (t : Table.Transaction) :
  Table.load_row parse_numeric quantity_dtype price_dtype r = inr t ->
  loaded parse_numeric r t.
Proof.
  unfold Table.load_row.
  destruct (Table.astype_int _) as [e|n] eqn:En; [discriminate|].
  intros E. inversion E. clear E. unfold loaded. cbn [Table.Quantity
    Table.Price Table.Revenue].
  destruct (quantity_converted _ _ En) as [Hzero Hfinite].
  destruct (price_and_revenue price_dtype
              (Table.to_numeric parse_numeric (Table.price r)) n)
    as [Hprice Hrevenue].
  repeat split; try assumption; apply Hrevenue.
Qed.

(** C1, as the code has it: [load_data] raises when some Quantity is
    an infinity after coercion, and only then.  Otherwise, row by row,
    a Quantity that is missing or not a number is loaded as 0; the
    Price is undefined (NaN) exactly when it is missing or not a number
    in the table; Revenue is the product Quantity * Price of the two
    columns; and Revenue is undefined exactly when the Price is
    undefined, or is an infinity while the Quantity is 0. *)
Theorem load_data_coercion (parse_numeric : string -> Table.scalar)
    (table : list Table.RawRow) :
  match Table.load_data parse_numeric table with
  | inr frame =>
      Forall2
        (fun r t =>
           (Table.isna (Table.to_numeric parse_numeric (Table.quantity r))
              = true ->
            Table.Quantity t = 0) /\
           Table.isna (Table.Price t)
             = Table.isna (Table.to_numeric parse_numeric (Table.price r)) /\
           Table.Revenue t
             = Table.times (Table.Quantity t) (Table.Price t) /\
           (Table.isna (Table.Revenue t) = true <->
            Table.isna (Table.Price t) = true \/
            (Table.is_infinite (Table.Price t) = true /\
             Table.Quantity t = 0)) /\
           Table.is_infinite
             (Table.to_numeric parse_numeric (Table.quantity r)) = false)
        table frame
  | inl e =>
      Exists (fun r =>
                Table.is_infinite
                  (Table.to_numeric parse_numeric (Table.quantity r)) = true)
             table
  end.
Proof.
  unfold Table.load_data.
  destruct (Table.traverse _ table) as [e|frame] eqn:E.
  - apply traverse_raises in E.
    apply Exists_exists in E. destruct E as [r [Hr E]].
    apply Exists_exists. exists r. split; [assumption|].
    unfold Table.load_row in E.
    destruct (Table.astype_int _) as [e'|n] eqn:En; [|discriminate].
    now apply quantity_raises in En.
  - change (Forall2 (loaded parse_numeric) table frame).
    apply traverse_Forall2 with (2 := E).
    intros r t _. apply load_row_loaded.
Qed.

(** C1, as the claim has it, fails for an infinite price: the row of
    the sample has a Quantity that is not a number, loaded as 0, and a
    Price that is defined, yet its Revenue is undefined. *)
Lemma revenue_undefined_for_infinite_price :
  exists t,
    Table.load_data Sample.not_a_number [Sample.priceless] = inr [t] /\
    Table.Quantity t = 0 /\
    Table.Price t = Table.SFloat (Float64.Infinite false) /\
    Table.isna (Table.Price t) = false /\
    Table.isna (Table.Revenue t) = true.
Proof.
  eexists. split; [reflexivity|]. repeat split.
Qed.

(** An infinite Quantity stops the loading. *)
Example load_data_raises :
  Table.load_data Sample.not_a_number [Sample.priceless; Sample.endless]
  = inl Table.IntCastingNaNError.
Proof. reflexivity. Qed.

(** ** KPI *)

(** The "Clients" metric is always a count: the "N/A" branch is never
    taken. *)
Lemma kpi_clients_count (df : DataFrame) :
  Kpi.Clients (kpi_section df) = Kpi.Count (nunique (map CustomerID df)).
Proof. reflexivity. Qed.

(** C2: on a view in which no row has a CustomerID, the code shows the
    count 0 and not "N/A". *)
Theorem kpi_clients_without_customer :
  let view := load_data Sample.no_number [Sample.mug_b2] in
  map CustomerID view = [None] /\
  Kpi.Clients (kpi_section view) = Kpi.Count 0 /\
  Kpi.Clients (kpi_section view) <> Kpi.NA.
Proof.
  repeat split. discriminate.
Qed.

(** ** The source frame *)

Lemma InvoiceDate_rewritten (df : DataFrame) :
  map (fun r => set_InvoiceDate r
                  (dt_date (date_to_datetime (InvoiceDate r)))) df = df.
Proof.
  rewrite <- (map_id df) at 2. apply map_ext.
  intros r. unfold dt_date, date_to_datetime.
  rewrite Z.div_mul by (vm_compute; discriminate).
  now destruct r.
Qed.

(** C4: after [filter_data] returns (or raises), the frame the caller
    passed in holds the same rows with the same values in every column,
    InvoiceDate included. *)
Theorem filter_data_source_unchanged
    (today : Z) (ui : Session) (df : DataFrame) :
  source_after (filter_data today ui df) = df.
Proof.
  unfold filter_data.
  destruct (empty df); [reflexivity|].
  rewrite InvoiceDate_rewritten.
  destruct (date_bounds _) as [e|[start_date end_date]]; [reflexivity|].
  match goal with |- context [empty ?v] => destruct (empty v) end;
    [reflexivity|].
  destruct (quantity_stage _ _). reflexivity.
Qed.

(** ** The filter stages *)

Section SeriesBounds.

Lemma fold_min_spec (x : Z) (s : list Z) :
  In (fold_right Z.min x s) (x :: s) /\
  forall y, In y (x :: s) -> fold_right Z.min x s <= y.
Proof.
  induction s as [|z s [IHin IHle]]; simpl.
  - split; [auto | intros y [<-|[]]; lia].
  - split.
    + destruct (Z.min_spec z (fold_right Z.min x s)) as [[_ ->]|[_ ->]];
        [auto|]. simpl in IHin. tauto.
    + intros y [<-|[<-|Hy]].
      * specialize (IHle x (or_introl eq_refl)). lia.
      * lia.
      * specialize (IHle y (or_intror Hy)). lia.
Qed.

Lemma fold_max_spec (x : Z) (s : list Z) :
  In (fold_right Z.max x s) (x :: s) /\
  forall y, In y (x :: s) -> y <= fold_right Z.max x s.
Proof.
  induction s as [|z s [IHin IHle]]; simpl.
  - split; [auto | intros y [<-|[]]; lia].
  - split.
    + destruct (Z.max_spec z (fold_right Z.max x s)) as [[_ ->]|[_ ->]];
        [simpl in IHin; tauto | auto].
    + intros y [<-|[<-|Hy]].
      * specialize (IHle x (or_introl eq_refl)). lia.
      * lia.
      * specialize (IHle y (or_intror Hy)). lia.
Qed.

Lemma series_min_spec (s : list Z) (m : Z) :
  series_min s = Some m -> In m s /\ forall y, In y s -> m <= y.
Proof.
  destruct s as [|x s]; simpl; [discriminate|].
  intros E. inversion E. apply fold_min_spec.
Qed.

Lemma series_max_spec (s : list Z) (m : Z) :
  series_max s = Some m -> In m s /\ forall y, In y s -> y <= m.
Proof.
  destruct s as [|x s]; simpl; [discriminate|].
  intros E. inversion E. apply fold_max_spec.
Qed.

Lemma series_min_defined (s : list Z) :
  s <> [] -> exists m, series_min s = Some m.
Proof. destruct s; [congruence | simpl; eauto]. Qed.

Lemma series_max_defined (s : list Z) :
  s <> [] -> exists m, series_max s = Some m.
Proof. destruct s; [congruence | simpl; eauto]. Qed.

End SeriesBounds.

Lemma empty_true_iff (df : DataFrame) : empty df = true <-> df = [].
Proof. destruct df; simpl; split; congruence. Qed.

Lemma empty_false_iff (df : DataFrame) : empty df = false <-> df <> [].
Proof. destruct df; simpl; split; congruence. Qed.

(** [filter_data] on a frame that is not empty, stage by stage. *)
Lemma filter_data_stages (today : Z) (ui : Session) (df : DataFrame) :
  df <> [] ->
  filter_data today ui df =
  match date_bounds (date_input (period_of today df) (periode_filtre ui)) with
  | inl e => {| source_after := df; sidebar := []; returned := inl e |}
  | inr b =>
      if empty (period_country_view ui b df) then
        {| source_after := df;
           sidebar := [warning NoRowsAfterPeriodCountry];
           returned := inr (period_country_view ui b df) |}
      else
        {| source_after := df;
           sidebar := fst (quantity_stage ui (period_country_view ui b df));
           returned := snd (quantity_stage ui (period_country_view ui b df)) |}
  end.
Proof.
  intros Hne. apply empty_false_iff in Hne.
  unfold filter_data. rewrite Hne, InvoiceDate_rewritten.
  fold (period_of today df).
  destruct (date_bounds _) as [e|[start_date end_date]]; [reflexivity|].
  unfold period_country_view, selected_in. simpl.
  match goal with |- context [empty ?v] => destruct (empty v) end;
    [reflexivity|].
  destruct (quantity_stage _ _). reflexivity.
Qed.

Lemma quantity_stage_nonempty (ui : Session) (filtered : DataFrame) :
  filtered <> [] ->
  exists min_quantity max_quantity,
    series_min (map Quantity filtered) = Some min_quantity /\
    series_max (map Quantity filtered) = Some max_quantity /\
    snd (quantity_stage ui filtered) =
      inr (filter (fun r => threshold_of ui min_quantity max_quantity
                            <=? Quantity r) filtered) /\
    fst (quantity_stage ui filtered) =
      (if min_quantity =? max_quantity
       then [info (AllQuantityEqual min_quantity)] else []).
Proof.
  intros Hne.
  assert (Hq : map Quantity filtered <> [])
    by (destruct filtered; [congruence | discriminate]).
  destruct (series_min_defined Hq) as [lo Hlo].
  destruct (series_max_defined Hq) as [hi Hhi].
  exists lo, hi. unfold quantity_stage, threshold_of.
  rewrite Hlo, Hhi. simpl.
  destruct (lo =? hi); auto.
Qed.

Lemma period_of_covers (today : Z) (df : DataFrame) (r : Transaction) :
  In r df ->
  in_period (fst (period_of today df)) (snd (period_of today df)) r = true.
Proof.
  intros Hin.
  assert (Hd : In (InvoiceDate r) (map InvoiceDate df)) by now apply in_map.
  assert (Hne : map InvoiceDate df <> [])
    by (intros E; rewrite E in Hd; destruct Hd).
  destruct (series_min_defined Hne) as [lo Hlo].
  destruct (series_max_defined Hne) as [hi Hhi].
  unfold period_of, in_period. rewrite Hlo, Hhi. simpl.
  apply series_min_spec in Hlo. apply series_max_spec in Hhi.
  apply andb_true_intro. split; apply Z.leb_le; [apply Hlo | apply Hhi]; auto.
Qed.

Lemma date_input_untouched (value : Z * Z) :
  date_bounds (date_input value None) = inr value.
Proof. destruct value. reflexivity. Qed.

(** The only exception the date widget can cause. *)
Lemma date_bounds_raises (date_range : date_input_value) (e : exn) :
  date_bounds date_range = inl e ->
  e = IndexError /\ date_range = DateTuple [].
Proof.
  destruct date_range as [[|a [|b [|c ds]]]|d]; simpl; try discriminate.
  intros E. inversion E. auto.
Qed.

Lemma period_country_view_In (ui : Session) (b : Z * Z) (df : DataFrame)
    (r : Transaction) :
  In r (period_country_view ui b df) <->
  In r df /\ in_period (fst b) (snd b) r = true /\
  isin (Country r)
       (selected_in ui (filter (in_period (fst b) (snd b)) df)) = true.
Proof.
  unfold period_country_view. simpl.
  rewrite filter_In, filter_In. tauto.
Qed.

(** A frame whose rows all pass the country test of some frame passes
    its own. *)
Lemma selected_in_own (ui : Session) (earlier view : DataFrame) :
  (forall r, In r view ->
             isin (Country r) (selected_in ui earlier) = true) ->
  forall r, In r view -> isin (Country r) (selected_in ui view) = true.
Proof.
  intros Hsel r Hr.
  specialize (Hsel r Hr).
  apply isin_true_iff in Hsel. destruct Hsel as [c [Hc Hin]].
  apply isin_true_iff. exists c. split; [assumption|].
  assert (Hown : In c (sorted (unique (dropna (map Country view))))).
  { rewrite sorted_In, unique_In, dropna_In, <- Hc. now apply in_map. }
  unfold selected_in, multiselect in *.
  destruct (filtre_pays ui) as [sel|]; [|assumption].
  apply filter_In in Hin. destruct Hin as [Hin _].
  apply filter_In. split; [assumption|]. now apply mem_true_iff.
Qed.

(** Conditions under which [filter_data] gives a frame back as it is. *)
Lemma filter_data_fixpoint (today : Z) (ui : Session) (view : DataFrame) :
  (view <> [] ->
   exists b,
     date_bounds (date_input (period_of today view) (periode_filtre ui))
       = inr b /\
     forall r, In r view -> in_period (fst b) (snd b) r = true) ->
  (forall r, In r view -> isin (Country r) (selected_in ui view) = true) ->
  (forall lo hi r,
     series_min (map Quantity view) = Some lo ->
     series_max (map Quantity view) = Some hi ->
     In r view -> threshold_of ui lo hi <= Quantity r) ->
  returned (filter_data today ui view) = inr view.
Proof.
  intros Hperiod Hcountry Hquantity.
  destruct view as [|r0 view0] eqn:Eview; [reflexivity|].
  rewrite <- Eview in *.
  assert (Hne : view <> []) by (rewrite Eview; discriminate).
  rewrite (filter_data_stages today ui Hne).
  destruct (Hperiod Hne) as [b [-> Hb]].
  assert (Hsame : period_country_view ui b view = view).
  { unfold period_country_view. simpl.
    rewrite (filter_all _ _ Hb). now apply filter_all. }
  rewrite Hsame.
  apply empty_false_iff in Hne. rewrite Hne. simpl.
  apply empty_false_iff in Hne.
  destruct (quantity_stage_nonempty ui Hne) as (lo & hi & Hlo & Hhi & -> & _).
  rewrite filter_all; [reflexivity|].
  intros r Hr. apply Z.leb_le. eauto.
Qed.

(** Case analysis on the tests of a slider, then linear arithmetic. *)
Ltac slider_cases :=
  unfold slider in *;
  repeat match goal with
         | |- context [if ?b then _ else _] => destruct b eqn:?
         | H : context [if ?b then _ else _] |- _ => destruct b eqn:?
         end;
  rewrite ?andb_true_iff, ?andb_false_iff, ?Z.leb_le, ?Z.leb_gt,
    ?Z.eqb_eq, ?Z.eqb_neq in *;
  lia.

(** The threshold lets the rows kept by an earlier call through. *)
Lemma threshold_of_own (ui : Session) (lo hi lo' hi' : Z) :
  lo <= lo' -> lo' <= hi' -> hi' <= hi ->
  threshold_of ui lo hi <= lo' ->
  threshold_of ui lo' hi' <= lo'.
Proof.
  unfold threshold_of. intros H1 H2 H3 H4.
  destruct (filtre_quantite ui) as [v|]; slider_cases.
Qed.

(** What a call of [filter_data] comes to: rows of the frame kept in
    order and stable under a second call, or an [IndexError] on an empty
    date tuple. *)
Lemma filter_data_outcome
    (today : Z) (ui : Session) (df : DataFrame) :
  match returned (filter_data today ui df) with
  | inr view =>
      (exists keep, view = filter keep df) /\
      (length view <= length df)%nat /\
      returned (filter_data today ui view) = inr view
  | inl e =>
      e = IndexError /\ periode_filtre ui = Some (DateTuple []) /\ df <> []
  end.
Proof.
  destruct df as [|r0 df0] eqn:Edf.
  { simpl. split; [exists (fun _ => true); reflexivity|].
    split; [lia | reflexivity]. }
  rewrite <- Edf in *.
  assert (Hne : df <> []) by (rewrite Edf; discriminate).
  rewrite (filter_data_stages today ui Hne).
  destruct (date_bounds _) as [e|b] eqn:Eb.
  { simpl. apply date_bounds_raises in Eb. destruct Eb as [-> Eb].
    split; [reflexivity|]. split; [|assumption].
    destruct (periode_filtre ui) as [v|]; simpl in Eb; [|discriminate].
    now subst v. }
  set (v1 := filter (in_period (fst b) (snd b)) df).
  set (v2 := period_country_view ui b df).
  assert (Hv2 : v2 = filter (fun r => isin (Country r) (selected_in ui v1)) v1)
    by reflexivity.
  assert (Hv2df : forall keep,
            filter keep v2 =
            filter (fun r => in_period (fst b) (snd b) r
                             && (isin (Country r) (selected_in ui v1)
                                 && keep r)) df).
  { intros keep. rewrite Hv2. unfold v1. now rewrite !filter_filter. }
  (* what a second call sees, whatever the quantity filter kept *)
  assert (Hagain : forall view,
            (forall r, In r view -> In r v2) ->
            (forall lo hi r,
               series_min (map Quantity view) = Some lo ->
               series_max (map Quantity view) = Some hi ->
               In r view -> threshold_of ui lo hi <= Quantity r) ->
            returned (filter_data today ui view) = inr view).
  { intros view Hsub Hq. apply filter_data_fixpoint; [| |assumption].
    - intros _. destruct (periode_filtre ui) as [v|] eqn:Eui.
      + exists b. simpl in *. split; [assumption|].
        intros r Hr. apply Hsub, period_country_view_In in Hr. tauto.
      + rewrite date_input_untouched. eexists; split; [reflexivity|].
        intros r Hr. now apply period_of_covers.
    - apply selected_in_own with (earlier := v1).
      intros r Hr. apply Hsub, period_country_view_In in Hr. tauto. }
  destruct (empty v2) eqn:Ev2.
  - simpl. apply empty_true_iff in Ev2.
    split; [|split].
    + exists (fun r => in_period (fst b) (snd b) r
                       && (isin (Country r) (selected_in ui v1) && true)).
      rewrite <- Hv2df. symmetry. now apply filter_all.
    + unfold v2, period_country_view. simpl.
      etransitivity; apply filter_length_le.
    + rewrite Ev2. reflexivity.
  - simpl. apply empty_false_iff in Ev2.
    destruct (quantity_stage_nonempty ui Ev2)
      as (lo & hi & Hlo & Hhi & -> & _).
    set (t := threshold_of ui lo hi).
    split; [|split].
    + eexists. apply Hv2df.
    + etransitivity; [apply filter_length_le|].
      unfold v2, period_country_view. simpl.
      etransitivity; apply filter_length_le.
    + apply Hagain.
      * intros r Hr. apply filter_In in Hr. tauto.
      * intros lo' hi' r Hlo' Hhi' Hr.
        apply series_min_spec in Hlo'. destruct Hlo' as [Hin' Hlo'].
        apply series_max_spec in Hhi'. destruct Hhi' as [Hin'' Hhi'].
        apply series_min_spec in Hlo. destruct Hlo as [_ Hlo].
        apply series_max_spec in Hhi. destruct Hhi as [_ Hhi].
        assert (Hkept : forall q,
                  In q (map Quantity
                          (filter (fun r => t <=? Quantity r) v2)) ->
                  In q (map Quantity v2) /\ t <= q).
        { intros q Hq. apply in_map_iff in Hq.
          destruct Hq as [x [<- Hx]]. apply filter_In in Hx.
          destruct Hx as [Hx Ht]. apply Z.leb_le in Ht.
          split; [now apply in_map | assumption]. }
        assert (Hr' : lo' <= Quantity r) by (apply Hlo'; now apply in_map).
        enough (threshold_of ui lo' hi' <= lo') by lia.
        destruct (Hkept _ Hin') as [Ha Hb']. destruct (Hkept _ Hin'') as [Hc _].
        apply threshold_of_own with (lo := lo) (hi := hi); auto.
Qed.

Lemma filter_data_keeps (today : Z) (ui : Session) (df view : DataFrame) :
  returned (filter_data today ui df) = inr view ->
  exists keep, view = filter keep df.
Proof.
  intros E. pose proof (filter_data_outcome today ui df) as H.
  rewrite E in H. tauto.
Qed.

Lemma filter_data_In (today : Z) (ui : Session) (df view : DataFrame)
    (r : Transaction) :
  returned (filter_data today ui df) = inr view -> In r view -> In r df.
Proof.
  intros E Hr. destruct (filter_data_keeps _ _ _ E) as [keep ->].
  apply filter_In in Hr. tauto.
Qed.

Lemma filter_data_again (today : Z) (ui : Session) (df view : DataFrame) :
  returned (filter_data today ui df) = inr view ->
  returned (filter_data today ui view) = inr view.
Proof.
  intros E. pose proof (filter_data_outcome today ui df) as H.
  rewrite E in H. tauto.
Qed.

Lemma filter_data_raises (today : Z) (ui : Session) (df : DataFrame)
    (e : exn) :
  returned (filter_data today ui df) = inl e ->
  e = IndexError /\ periode_filtre ui = Some (DateTuple []) /\ df <> [].
Proof.
  intros E. pose proof (filter_data_outcome today ui df) as H.
  rewrite E in H. assumption.
Qed.

(** C3: the rows [filter_data] returns are rows of the frame it was
    given, kept in order, so they are at most as many; and the same
    widget values applied to the returned frame give it back.  (The
    call raises only when the date widget holds an empty tuple.) *)
Theorem filter_data_subset_idempotent
    (today : Z) (ui : Session) (df : DataFrame) :
  match returned (filter_data today ui df) with
  | inr view =>
      (exists keep, view = filter keep df) /\
      (forall r, In r view -> In r df) /\
      (length view <= length df)%nat /\
      returned (filter_data today ui view) = inr view
  | inl e =>
      e = IndexError /\ periode_filtre ui = Some (DateTuple []) /\ df <> []
  end.
Proof.
  destruct (returned (filter_data today ui df)) as [e|view] eqn:E.
  - exact (filter_data_raises _ _ _ E).
  - destruct (filter_data_keeps _ _ _ E) as [keep Hkeep].
    split; [now exists keep|].
    split; [intros r; now apply filter_data_In with (1 := E)|].
    split; [subst view; apply filter_length_le|].
    now apply filter_data_again with (1 := E).
Qed.

(** C9: with the country widget untouched, a row whose Country is
    missing is not in the frame [filter_data] returns. *)
Theorem default_countries_drop_missing
    (today : Z) (ui : Session) (df view : DataFrame) (r : Transaction) :
  filtre_pays ui = None ->
  returned (filter_data today ui df) = inr view ->
  In r df -> Country r = None ->
  ~ In r view.
Proof.
  intros _ Hret Hin Hnone Hview.
  assert (Hne : df <> []) by (intros E; rewrite E in Hin; destruct Hin).
  rewrite (filter_data_stages today ui Hne) in Hret.
  destruct (date_bounds _) as [e|b]; [discriminate|].
  assert (Hv2 : In r (period_country_view ui b df)).
  { destruct (empty (period_country_view ui b df)) eqn:Ev2; simpl in Hret.
    - inversion Hret. now subst view.
    - apply empty_false_iff in Ev2.
      destruct (quantity_stage_nonempty ui Ev2) as (lo & hi & _ & _ & E & _).
      rewrite E in Hret. inversion Hret. subst view.
      apply filter_In in Hview. tauto. }
  apply period_country_view_In in Hv2. destruct Hv2 as (_ & _ & Hisin).
  rewrite Hnone in Hisin. discriminate.
Qed.

(** The default list of countries: the distinct non-missing Country
    values of the period-filtered frame. *)
Lemma selected_in_default (ui : Session) (filtered : DataFrame) (c : string) :
  filtre_pays ui = None ->
  (In c (selected_in ui filtered) <->
   exists r, In r filtered /\ Country r = Some c).
Proof.
  intros E. unfold selected_in, multiselect. rewrite E.
  rewrite sorted_In, unique_In, dropna_In, in_map_iff.
  split; intros [r [? ?]]; exists r; auto.
Qed.

Lemma default_countries_drop_missing_witness :
  let df := load_data Sample.no_number (Sample.stateless :: Sample.table) in
  let r := load_row Sample.no_number Sample.stateless in
  in_period (fst (period_of 0 df)) (snd (period_of 0 df)) r = true /\
  ~ In r (load_data Sample.no_number Sample.table).
Proof.
  split; [reflexivity|].
  apply (@default_countries_drop_missing 0 Sample.untouched
           (load_data Sample.no_number (Sample.stateless :: Sample.table))
           (load_data Sample.no_number Sample.table)
           (load_row Sample.no_number Sample.stateless)).
  - reflexivity.
  - reflexivity.
  - left. reflexivity.
  - reflexivity.
Defined.

(** ** Empty views *)

Lemma threshold_of_le_max (ui : Session) (lo hi : Z) :
  lo <= hi -> threshold_of ui lo hi <= hi.
Proof.
  unfold threshold_of. intros Hle.
  destruct (filtre_quantite ui); slider_cases.
Qed.

(** The quantity filter keeps a row of largest Quantity. *)
Lemma quantity_stage_keeps_one (ui : Session) (filtered : DataFrame) :
  filtered <> [] ->
  exists view, snd (quantity_stage ui filtered) = inr view /\ view <> [].
Proof.
  intros Hne.
  destruct (quantity_stage_nonempty ui Hne) as (lo & hi & Hlo & Hhi & -> & _).
  eexists. split; [reflexivity|].
  apply series_min_spec in Hlo. destruct Hlo as [_ Hlo].
  apply series_max_spec in Hhi. destruct Hhi as [Hin Hhi].
  apply in_map_iff in Hin. destruct Hin as [r [Hq Hr]].
  assert (Hle : lo <= hi) by (apply Hlo; rewrite <- Hq; now apply in_map).
  assert (Hk : In r (filter (fun r => threshold_of ui lo hi <=? Quantity r)
                            filtered)).
  { apply filter_In. split; [assumption|]. apply Z.leb_le. rewrite Hq.
    now apply threshold_of_le_max. }
  intros E. rewrite E in Hk. destruct Hk.
Qed.

(** [filter_data] never fails on the minimum or maximum of an empty
    Quantity column. *)
Lemma filter_data_no_ValueError (today : Z) (ui : Session) (df : DataFrame) :
  returned (filter_data today ui df) <> inl ValueError.
Proof.
  intros E. apply filter_data_raises in E. destruct E as [E _].
  discriminate.
Qed.

(** An empty frame is returned with a warning, and only then. *)
Lemma filter_data_warns_iff_empty
    (today : Z) (ui : Session) (df view : DataFrame) :
  returned (filter_data today ui df) = inr view ->
  (view = [] <-> exists t, sidebar (filter_data today ui df) = [warning t]).
Proof.
  destruct df as [|r0 df0] eqn:Edf.
  { simpl. intros E. inversion E. split; eauto. }
  rewrite <- Edf in *.
  assert (Hne : df <> []) by (rewrite Edf; discriminate).
  rewrite (filter_data_stages today ui Hne).
  destruct (date_bounds _) as [e|b]; [discriminate|].
  destruct (empty (period_country_view ui b df)) eqn:Ev2; simpl.
  - apply empty_true_iff in Ev2. rewrite Ev2. intros E. inversion E.
    split; eauto.
  - apply empty_false_iff in Ev2.
    destruct (quantity_stage_keeps_one ui Ev2) as (v & Hv & Hvne).
    destruct (quantity_stage_nonempty ui Ev2) as (lo & hi & _ & _ & _ & ->).
    rewrite Hv. intros E. inversion E. subst v.
    split; [congruence|].
    intros [t Ht]. destruct (lo =? hi); discriminate.
Qed.

(** C6: an empty source frame is returned at once with a warning; a
    frame emptied by the period filter stays empty through the country
    filter; a frame empty after both is returned with a warning without
    its minimum or maximum Quantity being computed, so that
    [filter_data] never raises on them; an empty frame is returned with
    a warning and a frame with rows without one; and every section of
    the dashboard has a defined empty or zero result on the empty
    frame, which is what [main] shows when the filters keep no row. *)
Theorem empty_view_guarded `{SortKind} (today : Z) (ui : Session) :
  filter_data today ui [] =
    {| source_after := []; sidebar := [warning NoData]; returned := inr [] |} /\
  (forall b df,
     filter (in_period (fst b) (snd b)) df = [] ->
     period_country_view ui b df = []) /\
  (forall df b,
     df <> [] ->
     date_bounds (date_input (period_of today df) (periode_filtre ui))
       = inr b ->
     period_country_view ui b df = [] ->
     filter_data today ui df =
       {| source_after := df;
          sidebar := [warning NoRowsAfterPeriodCountry];
          returned := inr [] |}) /\
  (forall df, returned (filter_data today ui df) <> inl ValueError) /\
  (forall df view,
     returned (filter_data today ui df) = inr view ->
     (view = [] <->
      exists t, sidebar (filter_data today ui df) = [warning t])) /\
  kpi_section [] =
    {| Kpi.Transactions := 0; Kpi.Articles := 0; Kpi.Clients := Kpi.Count 0;
       Kpi.Revenue := 0%Q |} /\
  transactions_over_time ui [] = [] /\
  top_products ui [] = ([info NoProductData], None) /\
  basket_analysis [] = ([info NoBasketData], None) /\
  country_analysis ui [] = ([info NoCountryData], None) /\
  temporal_pattern [] = [] /\
  (forall parse_numeric table,
     table <> [] ->
     returned (filter_data today ui (load_data parse_numeric table))
       = inr [] ->
     main parse_numeric today ui table =
       Shown {| page_sidebar :=
                  sidebar (filter_data today ui
                             (load_data parse_numeric table));
                lines_after_filter := 0;
                page_kpi :=
                  {| Kpi.Transactions := 0; Kpi.Articles := 0;
                     Kpi.Clients := Kpi.Count 0; Kpi.Revenue := 0%Q |};
                page_time := [];
                page_products := ([info NoProductData], None);
                page_baskets := ([info NoBasketData], None);
                page_countries := ([info NoCountryData], None);
                page_heat := [];
                page_preview := [] |}).
Proof.
  split; [reflexivity|].
  split.
  { intros b df E. unfold period_country_view. simpl. now rewrite E. }
  split.
  { intros df b Hne Hb Hv. rewrite (filter_data_stages today ui Hne), Hb, Hv.
    reflexivity. }
  split; [apply filter_data_no_ValueError|].
  split; [apply filter_data_warns_iff_empty|].
  split; [reflexivity|].
  split; [unfold transactions_over_time; destruct (radio _ _); reflexivity|].
  split; [reflexivity|].
  split; [reflexivity|].
  split; [reflexivity|].
  split; [reflexivity|].
  intros parse_numeric table Hne Hret.
  unfold main.
  assert (Hdf : empty (load_data parse_numeric table) = false)
    by (destruct table; [congruence | reflexivity]).
  rewrite Hdf, Hret.
  unfold transactions_over_time. destruct (radio _ _); reflexivity.
Qed.

(** ** Counting distinct values group by group *)

Lemma NoDup_flat_map {K V} (f : K -> list V) (ks : list K) :
  NoDup ks ->
  (forall k, In k ks -> NoDup (f k)) ->
  (forall k1 k2 v,
     In k1 ks -> In k2 ks -> In v (f k1) -> In v (f k2) -> k1 = k2) ->
  NoDup (flat_map f ks).
Proof.
  induction 1 as [|k ks Hk Hks IH]; intros Hnd Hdisj; simpl; [constructor|].
  apply NoDup_app.
  - apply Hnd. now left.
  - apply IH.
    + intros k' Hk'. apply Hnd. now right.
    + intros k1 k2 v H1 H2. apply Hdisj; now right.
  - intros v Hv Hin. apply in_flat_map in Hin.
    destruct Hin as [k' [Hk' Hv']].
    assert (k = k') by (apply (Hdisj k k' v); simpl; auto).
    subst k'. contradiction.
Qed.

Section GroupCounts.

Context {R K V : Type} {EqK : Eq K} {OrdK : Ord K} {EqV : Eq V}.
Variable key : R -> option K.
Variable val : R -> option V.
Variable df : list R.

(** The distinct values of a group. *)
Let values_of (k : K) : list V :=
  unique (dropna (map val (filter (fun r => eqb (key r) (Some k)) df))).

Lemma values_of_In (k : K) (v : V) :
  In v (values_of k) <->
  exists r, In r df /\ key r = Some k /\ val r = Some v.
Proof.
  unfold values_of. rewrite unique_In, dropna_In, in_map_iff.
  split.
  - intros [r [Hv Hr]]. apply filter_In in Hr. destruct Hr as [Hr Hk].
    apply eqb_true_iff in Hk. eauto.
  - intros [r [Hr [Hk Hv]]]. exists r. split; [assumption|].
    apply filter_In. split; [assumption|]. now apply eqb_true_iff.
Qed.

(** When the rows that share a value share their key, and a row with a
    value has a key, the numbers of distinct values of the groups add
    up to the number of distinct values of the frame. *)
Lemma nunique_by_group :
  (forall r1 r2, In r1 df -> In r2 df ->
                 val r1 = val r2 -> val r1 <> None -> key r1 = key r2) ->
  (forall r, In r df -> val r <> None -> key r <> None) ->
  list_sum (map (fun kg => nunique (map val (snd kg))) (groupby key df))
  = nunique (map val df).
Proof.
  intros Hshare Hkeyed.
  unfold groupby. rewrite map_map. simpl.
  change (list_sum
            (map (fun k => length (values_of k))
                 (sorted (unique (dropna (map key df)))))
          = nunique (map val df)).
  rewrite <- length_flat_map. unfold nunique.
  apply Permutation_length, NoDup_Permutation.
  - apply NoDup_flat_map.
    + apply sorted_NoDup, unique_NoDup.
    + intros k _. apply unique_NoDup.
    + intros k1 k2 v _ _ H1 H2.
      apply values_of_In in H1. destruct H1 as (r1 & Hr1 & Hk1 & Hv1).
      apply values_of_In in H2. destruct H2 as (r2 & Hr2 & Hk2 & Hv2).
      assert (E : key r1 = key r2)
        by (apply Hshare; congruence).
      congruence.
  - apply unique_NoDup.
  - intros v. rewrite in_flat_map, unique_In, dropna_In, in_map_iff.
    split.
    + intros [k [_ Hv]]. apply values_of_In in Hv.
      destruct Hv as (r & Hr & _ & Hv). eauto.
    + intros [r [Hv Hr]].
      destruct (key r) as [k|] eqn:Ek.
      * exists k. split.
        -- rewrite sorted_In, unique_In, dropna_In, <- Ek. now apply in_map.
        -- apply values_of_In. eauto.
      * exfalso. apply (Hkeyed r Hr); congruence.
Qed.

End GroupCounts.

(** ** Temporal patterns *)

Lemma dt_hour_range (ts : Z) : 0 <= dt_hour ts <= 23.
Proof.
  unfold dt_hour.
  assert (Hd : 0 < ns_per_day) by reflexivity.
  assert (Hh : 0 < ns_per_hour) by reflexivity.
  pose proof (Z.mod_pos_bound ts ns_per_day Hd) as [Hlo Hhi].
  split.
  - now apply Z.div_pos.
  - apply Z.lt_succ_r. apply Z.div_lt_upper_bound; [assumption|].
    replace (ns_per_hour * Z.succ 23) with ns_per_day by reflexivity.
    assumption.
Qed.

Lemma dt_day_name_In (ts : Z) : In (dt_day_name ts) day_names.
Proof.
  unfold dt_day_name. apply nth_In.
  pose proof (Z.mod_pos_bound (dt_date ts + 3) 7 eq_refl).
  change (length day_names) with 7%nat. lia.
Qed.

Lemma categorical_In (categories : list string) (w : string) :
  In w categories -> categorical categories w = Some w.
Proof.
  intros Hin. unfold categorical.
  apply mem_true_iff in Hin. now rewrite Hin.
Qed.

Lemma load_data_derived (parse_numeric : string -> option Q)
    (table : list RawRow) (t : Transaction) :
  In t (load_data parse_numeric table) -> derived t.
Proof.
  unfold load_data. rewrite in_map_iff. intros [r [<- _]].
  split; reflexivity.
Qed.

Lemma temporal_pattern_In (df : DataFrame) (c : Heat.row) :
  In c (temporal_pattern df) ->
  exists r, In r df /\
            Heat.Weekday c = categorical weekday_order (Weekday r) /\
            Heat.Hour c = Hour r.
Proof.
  unfold temporal_pattern. rewrite in_map_iff.
  intros [kg [<- Hkg]]. simpl.
  apply groupby_In_inv in Hkg. destruct Hkg as [_ [r [Hr Hk]]].
  exists r. injection Hk as Hk'. rewrite <- Hk'. auto.
Qed.

Lemma temporal_pattern_total (df : DataFrame) :
  (forall r1 r2, In r1 df -> In r2 df ->
                 BillNo r1 = BillNo r2 -> BillNo r1 <> None ->
                 (Weekday r1, Hour r1) = (Weekday r2, Hour r2)) ->
  list_sum (map Heat.transactions (temporal_pattern df))
  = nunique (map BillNo df).
Proof.
  intros Hshare. unfold temporal_pattern. rewrite map_map. simpl.
  apply (nunique_by_group (fun r => Some (Weekday r, Hour r)) BillNo).
  - intros r1 r2 H1 H2 Hb Hn. f_equal. now apply Hshare.
  - discriminate.
Qed.

(** C7: for every view returned by the filters on a loaded table in
    which the rows of a bill carry one timestamp, every row of the
    heatmap has a Weekday among the seven labels and an Hour between 0
    and 23, and the counts of the heatmap add up to the number of
    distinct BillNo of the view. *)
Theorem heatmap_keys_and_total
    (parse_numeric : string -> option Q) (table : list RawRow)
    (today : Z) (ui : Session) (view : DataFrame) :
  returned (filter_data today ui (load_data parse_numeric table))
    = inr view ->
  (forall r1 r2, In r1 view -> In r2 view ->
                 BillNo r1 = BillNo r2 -> BillNo r1 <> None ->
                 Date r1 = Date r2) ->
  (forall c, In c (temporal_pattern view) ->
             (exists w, Heat.Weekday c = Some w /\ In w weekday_order) /\
             0 <= Heat.Hour c <= 23) /\
  list_sum (map Heat.transactions (temporal_pattern view))
  = nunique (map BillNo view).
Proof.
  intros Hret Hone.
  assert (Hder : forall r, In r view -> derived r).
  { intros r Hr. apply load_data_derived with parse_numeric table.
    now apply filter_data_In with (1 := Hret). }
  split.
  - intros c Hc. apply temporal_pattern_In in Hc.
    destruct Hc as (r & Hr & Hw & Hh).
    destruct (Hder r Hr) as [Hhour Hday].
    split.
    + exists (Weekday r). rewrite Hw, Hday.
      split; [apply categorical_In|]; apply dt_day_name_In.
    + rewrite Hh, Hhour. apply dt_hour_range.
  - apply temporal_pattern_total.
    intros r1 r2 H1 H2 Hb Hn.
    destruct (Hder r1 H1) as [-> ->]. destruct (Hder r2 H2) as [-> ->].
    now rewrite (Hone r1 r2 H1 H2 Hb Hn).
Qed.

Lemma heatmap_keys_and_total_witness :
  list_sum (map Heat.transactions (temporal_pattern Sample.df)) = 2%nat /\
  nunique (map BillNo Sample.df) = 2%nat.
Proof.
  assert (Hone : forall r1 r2, In r1 Sample.df -> In r2 Sample.df ->
                   BillNo r1 = BillNo r2 -> BillNo r1 <> None ->
                   Date r1 = Date r2).
  { intros r1 r2 H1 H2.
    simpl in H1, H2.
    destruct H1 as [<-|[<-|[<-|[]]]]; destruct H2 as [<-|[<-|[<-|[]]]];
      simpl; intros E _; solve [reflexivity | discriminate E]. }
  destruct (@heatmap_keys_and_total Sample.no_number Sample.table 0
              Sample.untouched Sample.df eq_refl Hone) as [_ Hsum].
  split; [rewrite Hsum|]; reflexivity.
Defined.

Lemma same_cell_key (r r' : Transaction) :
  eqb (Some (Weekday r', Hour r')) (Some (Weekday r, Hour r))
  = same_cell r r'.
Proof.
  unfold eqb, same_cell.
  destruct (eq_dec _ _) as [E|E].
  - inversion E. now rewrite String.eqb_refl, Z.eqb_refl.
  - destruct (String.eqb (Weekday r') (Weekday r)) eqn:Ew; [|reflexivity].
    destruct (Hour r' =? Hour r) eqn:Eh; [|reflexivity].
    apply String.eqb_eq in Ew. apply Z.eqb_eq in Eh.
    exfalso. apply E. congruence.
Qed.

(** A row of the heatmap is the cell of a row of the frame, with the
    number of distinct bills of that cell. *)
Lemma temporal_pattern_cell (df : DataFrame) (c : Heat.row) :
  In c (temporal_pattern df) <->
  exists r, In r df /\
            Heat.Weekday c = categorical weekday_order (Weekday r) /\
            Heat.Hour c = Hour r /\
            Heat.transactions c
              = nunique (map BillNo (filter (same_cell r) df)).
Proof.
  unfold temporal_pattern. rewrite in_map_iff. split.
  - intros [kg [<- Hkg]]. simpl.
    apply groupby_In_inv in Hkg. destruct Hkg as [Hg [r [Hr Hk]]].
    exists r. injection Hk as Hk'. rewrite Hg, <- Hk'. simpl.
    repeat split; try assumption.
    do 2 f_equal. apply filter_ext. intros r'. apply same_cell_key.
  - intros (r & Hr & Hw & Hh & Hn).
    assert (Hk : In (Weekday r, Hour r)
                    (map fst (groupby (fun r => Some (Weekday r, Hour r)) df)))
      by (apply groupby_key_In; eauto).
    apply in_map_iff in Hk. destruct Hk as [kg [Hk Hkg]].
    exists kg. split; [|assumption].
    apply groupby_In_inv in Hkg. destruct Hkg as [Hg _].
    destruct c as [w h n]. simpl in *. subst w h n.
    rewrite Hg, Hk. simpl. do 3 f_equal.
    apply filter_ext. intros r'. apply same_cell_key.
Qed.

(** C8, as the code has it: the heatmap has one row for each
    (Weekday, Hour) pair that a row of the view carries, each once, and
    no row for any other pair; the row holds the weekday name (when it
    is one of the seven categories), the hour, and the number of
    distinct BillNo among the rows of the view with that weekday and
    hour. *)
Theorem heatmap_observed_cells (df : DataFrame) :
  (forall c, In c (temporal_pattern df) ->
             exists r, In r df /\
                       Heat.Weekday c
                         = categorical weekday_order (Weekday r) /\
                       Heat.Hour c = Hour r /\
                       Heat.transactions c
                         = nunique (map BillNo (filter (same_cell r) df))) /\
  (forall r, In r df ->
             In {| Heat.Weekday := categorical weekday_order (Weekday r);
                   Heat.Hour := Hour r;
                   Heat.transactions :=
                     nunique (map BillNo (filter (same_cell r) df)) |}
                (temporal_pattern df)) /\
  length (temporal_pattern df)
  = length (unique (map (fun r => (Weekday r, Hour r)) df)).
Proof.
  split; [intros c; apply temporal_pattern_cell|]. split.
  - intros r Hr. apply temporal_pattern_cell. exists r. simpl. auto.
  - unfold temporal_pattern. rewrite length_map, groupby_length.
    unfold nunique. now rewrite dropna_map_Some.
Qed.

(** C8, as the claim has it, fails on the sample frame: its heatmap has
    two rows, and none for Monday at hour 0. *)
Lemma heatmap_not_a_full_grid :
  length (temporal_pattern Sample.df) = 2%nat /\
  ~ (forall w h, In w weekday_order -> 0 <= h <= 23 ->
       exists c, In c (temporal_pattern Sample.df) /\
                 Heat.Weekday c = Some w /\ Heat.Hour c = h).
Proof.
  split; [reflexivity|].
  intros Hgrid.
  destruct (Hgrid "Monday"%string 0) as (c & Hc & _ & Hh);
    [left; reflexivity | lia |].
  vm_compute in Hc. destruct Hc as [<-|[<-|[]]]; discriminate Hh.
Qed.

(** ** Baskets *)

Lemma list_sum_perm (l l' : list nat) :
  Permutation l l' -> list_sum l = list_sum l'.
Proof.
  induction 1; simpl; lia.
Qed.

Lemma indicator_sum (x : nat) (ks : list nat) :
  NoDup ks -> In x ks ->
  list_sum (map (fun k => if Nat.eq_dec x k then 1 else 0)%nat ks) = 1%nat.
Proof.
  induction 1 as [|k ks Hk Hks IH]; simpl; [tauto|].
  intros [->|Hin].
  - destruct (Nat.eq_dec x x); [|congruence].
    assert (Hz : list_sum
                   (map (fun k => if Nat.eq_dec x k then 1 else 0)%nat ks)
                 = 0%nat).
    { clear IH Hks. induction ks as [|y ks IHks]; simpl; [reflexivity|].
      destruct (Nat.eq_dec x y) as [->|_]; [exfalso; apply Hk; now left|].
      apply IHks. intros Hx. apply Hk. now right. }
    lia.
  - destruct (Nat.eq_dec x k) as [->|_]; [contradiction|].
    now rewrite IH.
Qed.

(** The occurrences of the distinct values of a column add up to its
    length. *)
Lemma count_occ_total (s ks : list nat) :
  NoDup ks -> (forall x, In x s -> In x ks) ->
  list_sum (map (count_occ Nat.eq_dec s) ks) = length s.
Proof.
  intros Hnd. induction s as [|x s IH]; intros Hin; simpl.
  - clear. induction ks; simpl; [reflexivity | assumption].
  - assert (E : map (fun k => if Nat.eq_dec x k
                              then S (count_occ Nat.eq_dec s k)
                              else count_occ Nat.eq_dec s k) ks
                = map (fun k => (if Nat.eq_dec x k then 1 else 0)
                                + count_occ Nat.eq_dec s k)%nat ks).
    { apply map_ext. intros k. destruct (Nat.eq_dec x k); reflexivity. }
    rewrite E. clear E.
    assert (Hsplit : forall (f g : nat -> nat) l,
              list_sum (map (fun k => f k + g k)%nat l)
              = (list_sum (map f l) + list_sum (map g l))%nat).
    { intros f g l. induction l; simpl; lia. }
    rewrite Hsplit, indicator_sum, IH; simpl; auto.
    + intros y Hy. apply Hin. now right.
    + apply Hin. now left.
Qed.

Lemma value_counts_total `{SortKind} (s : list nat) :
  list_sum (map snd (value_counts s)) = length s.
Proof.
  unfold value_counts.
  rewrite <- (list_sum_perm (Permutation_map snd (sort_by_perm _ _))).
  rewrite map_map. simpl.
  apply count_occ_total; [apply unique_NoDup|].
  intros x. apply unique_In.
Qed.

Lemma value_counts_keys `{SortKind} (s : list nat) :
  Permutation (unique s) (map fst (value_counts s)).
Proof.
  unfold value_counts.
  rewrite <- (Permutation_map fst (sort_by_perm _ _)).
  rewrite map_map. simpl. now rewrite map_id.
Qed.

Lemma ascending_nat_total {A} (col : A -> nat) (x y : A) :
  ascending_nat col x y = true \/ ascending_nat col y x = true.
Proof.
  unfold ascending_nat.
  destruct (Nat.leb_spec (col x) (col y)); [now left | right].
  apply Nat.leb_le. lia.
Qed.

Lemma ascending_nat_trans {A} (col : A -> nat) (x y z : A) :
  ascending_nat col x y = true -> ascending_nat col y z = true ->
  ascending_nat col x z = true.
Proof.
  unfold ascending_nat. rewrite !Nat.leb_le. lia.
Qed.

Lemma StronglySorted_weaken {A} (P Q : A -> A -> Prop) (l : list A) :
  (forall x y, P x y -> Q x y) ->
  StronglySorted P l -> StronglySorted Q l.
Proof.
  intros HPQ. induction 1 as [|x l Hl IH Hx]; constructor; [assumption|].
  rewrite Forall_forall in *. auto.
Qed.

Lemma StronglySorted_map {A B} (f : A -> B) (P : B -> B -> Prop)
    (l : list A) :
  StronglySorted (fun x y => P (f x) (f y)) l ->
  StronglySorted P (map f l).
Proof.
  induction 1 as [|x l Hl IH Hx]; simpl; constructor; [assumption|].
  rewrite Forall_forall in *. intros y Hy.
  apply in_map_iff in Hy. destruct Hy as [z [<- Hz]]. auto.
Qed.

Lemma mean_nonempty (s : list Q) :
  s <> [] -> mean s = Some (total s / inject_Z (Z.of_nat (length s)))%Q.
Proof. destruct s; [congruence | reflexivity]. Qed.

(** C10: on a view that is not empty, the counts of the basket-size
    histogram add up to the number of distinct BillNo of the view, the
    sizes of the histogram are the distinct basket sizes in ascending
    order, and each of the three means is the total of its column over
    the baskets, one per distinct BillNo, divided by their number (and
    undefined when no row has a BillNo). *)
Theorem basket_histogram_partition `{SortKind} (df : DataFrame) :
  df <> [] ->
  let baskets := Baskets.agg df in
  let n := nunique (map BillNo df) in
  exists stats,
    basket_analysis df = ([], Some stats) /\
    list_sum (map snd (Baskets.size_counts stats)) = n /\
    Permutation (unique (map Baskets.basket_size baskets))
                (map fst (Baskets.size_counts stats)) /\
    StronglySorted le (map fst (Baskets.size_counts stats)) /\
    length baskets = n /\
    NoDup (map Baskets.BillNo baskets) /\
    (forall b, In b (map Baskets.BillNo baskets)
               <-> In (Some b) (map BillNo df)) /\
    (n = 0%nat ->
     Baskets.mean_basket_size stats = None /\
     Baskets.mean_quantity_total stats = None /\
     Baskets.mean_revenue stats = None) /\
    (n <> 0%nat ->
     Baskets.mean_basket_size stats =
       Some (total (map (fun b => inject_Z (Z.of_nat (Baskets.basket_size b)))
                        baskets) / inject_Z (Z.of_nat n))%Q /\
     Baskets.mean_quantity_total stats =
       Some (total (map (fun b => inject_Z (Baskets.quantity_total b))
                        baskets) / inject_Z (Z.of_nat n))%Q /\
     Baskets.mean_revenue stats =
       Some (total (map Baskets.revenue baskets)
             / inject_Z (Z.of_nat n))%Q).
Proof.
  intros Hne baskets n.
  assert (Hlen : length baskets = n).
  { unfold baskets, Baskets.agg, Baskets.groups.
    now rewrite length_map, groupby_length. }
  assert (Hkeys : map Baskets.BillNo baskets
                  = map fst (groupby BillNo df)).
  { unfold baskets, Baskets.agg, Baskets.groups.
    rewrite map_map. reflexivity. }
  unfold basket_analysis.
  apply empty_false_iff in Hne. rewrite Hne.
  eexists. split; [reflexivity|]. simpl. fold baskets.
  split.
  { rewrite <- (list_sum_perm (Permutation_map snd (sort_by_perm _ _))).
    now rewrite value_counts_total, length_map. }
  split.
  { rewrite <- (Permutation_map fst (sort_by_perm _ _)).
    apply value_counts_keys. }
  split.
  { apply StronglySorted_map.
    eapply StronglySorted_weaken;
      [|apply sort_by_sorted;
        [apply ascending_nat_total | apply ascending_nat_trans]].
    intros x y Hxy. now apply Nat.leb_le. }
  split; [assumption|].
  split; [rewrite Hkeys; apply groupby_keys_NoDup|].
  split.
  { intros b. rewrite Hkeys, groupby_key_In, in_map_iff.
    split; intros [r [? ?]]; exists r; auto. }
  split.
  - intros Hz. rewrite Hz in Hlen.
    apply length_zero_iff_nil in Hlen. rewrite Hlen. auto.
  - intros Hnz.
    assert (Hb : baskets <> [])
      by (intros E; rewrite E in Hlen; simpl in Hlen; congruence).
    rewrite !mean_nonempty, !length_map, Hlen;
      try (destruct baskets; [congruence | discriminate]).
    auto.
Qed.

(** ** Ranked products *)



Lemma descending_float_total {A} (col : A -> Q) (x y : A) :
  descending_float col x y = true \/ descending_float col y x = true.
Proof.
  unfold descending_float. rewrite !Qle_bool_iff.
  destruct (Qlt_le_dec (col x) (col y)) as [Hlt|Hle]; [right | now left].
  now apply Qlt_le_weak.
Qed.

Lemma descending_float_trans {A} (col : A -> Q) (x y z : A) :
  descending_float col x y = true -> descending_float col y z = true ->
  descending_float col x z = true.
Proof.
  unfold descending_float. rewrite !Qle_bool_iff.
  intros Hyx Hzy. now apply Qle_trans with (col y).
Qed.

Lemma firstn_In {A} (n : nat) (l : list A) (x : A) :
  In x (firstn n l) -> In x l.
Proof.
  intros Hx. rewrite <- (firstn_skipn n l). apply in_or_app. now left.
Qed.





(** With [kind="stable"] two products of equal quantity stay in group
    order. *)
Example top_products_ties_stable :
  option_map (map Products.Itemname)
             (snd (@top_products stable Sample.untouched Sample.tie_df))
    = Some ["Mug"; "Plate"]%string.
Proof. reflexivity. Qed.

Lemma basket_histogram_partition_witness :
  exists stats,
    @basket_analysis stable Sample.df = ([], Some stats) /\
    list_sum (map snd (Baskets.size_counts stats)) = 2%nat.
Proof.
  assert (Hne : Sample.df <> []) by discriminate.
  destruct (@basket_histogram_partition stable Sample.df Hne)
    as (stats & E & Hsum & _).
  exists stats. split; [exact E|]. rewrite Hsum. reflexivity.
Defined.

(** ** What [kind="stable"] would add *)

Section StableTies.

Variable A : Type.
Variable le : A -> A -> bool.

(** [tied] selects the rows of one key: a row that a tied row may not
    precede is not tied. *)
Variable tied : A -> bool.
Hypothesis tied_apart :
  forall x z, tied x = true -> le x z = false -> tied z = false.

Lemma insert_before_tied (x : A) (l : list A) :
  filter tied (insert_before le x l) = filter tied (x :: l).
Proof.
  induction l as [|z l IH]; simpl; [reflexivity|].
  destruct (le x z) eqn:E; [reflexivity|].
  simpl. rewrite IH. simpl.
  destruct (tied x) eqn:Ex; [|reflexivity].
  now rewrite (@tied_apart x z Ex E).
Qed.

(** The stable sort leaves the rows of one key in input order. *)
Lemma sort_stable_tied (l : list A) :
  filter tied (sort_stable le l) = filter tied l.
Proof.
  induction l as [|x l IH]; simpl; [reflexivity|].
  rewrite insert_before_tied. simpl. now rewrite IH.
Qed.

End StableTies.

(** Under [kind="stable"] the products of equal quantity would stay in
    group order in the ranking by quantity. *)
Lemma stable_ranking_keeps_group_order (df : DataFrame) (q : Z) :
  filter (fun a => Products.quantity_sold a =? q)
         (@sort_by stable _ (descending_int Products.quantity_sold)
                   (Products.agg df))
  = filter (fun a => Products.quantity_sold a =? q) (Products.agg df).
Proof.
  apply sort_stable_tied.
  intros x z Hx Hz. unfold descending_int in Hz.
  apply Z.eqb_eq in Hx. apply Z.leb_gt in Hz. apply Z.eqb_neq. lia.
Qed.

(** * Further properties *)

(** ** Sorted keys *)

Section SortedKeys.

Context {A : Type} {OrdA : Ord A}.
Hypothesis leb_total : forall x y : A, leb x y = true \/ leb y x = true.
Hypothesis leb_trans :
  forall x y z : A, leb x y = true -> leb y z = true -> leb x z = true.

Lemma insert_key_sorted (x : A) (l : list A) :
  StronglySorted (fun a b => leb a b = true) l ->
  StronglySorted (fun a b => leb a b = true) (insert_key x l).
Proof.
  induction l as [|y l IH]; simpl; intros Hs.
  - constructor; constructor.
  - inversion Hs as [|? ? Hl Hy]; subst.
    destruct (leb x y) eqn:E.
    + constructor; [assumption|].
      constructor; [assumption|].
      rewrite Forall_forall in *. intros z Hz. eauto.
    + constructor; [now apply IH|].
      rewrite Forall_forall in *. intros z Hz.
      apply Permutation_in with (l' := x :: l) in Hz;
        [|symmetry; apply insert_key_perm].
      destruct Hz as [<-|Hz]; [|now apply Hy].
      destruct (leb_total x y); congruence.
Qed.

Lemma sorted_sorted (l : list A) :
  StronglySorted (fun a b => leb a b = true) (sorted l).
Proof.
  induction l as [|x l IH]; simpl;
    [constructor | now apply insert_key_sorted].
Qed.

End SortedKeys.

Lemma StronglySorted_NoDup_lt (l : list Z) :
  StronglySorted Z.le l -> NoDup l -> StronglySorted Z.lt l.
Proof.
  induction 1 as [|x l Hl IH Hx]; intros Hnd; constructor.
  - apply IH. now inversion Hnd.
  - inversion Hnd as [|? ? Hnot _]; subst.
    rewrite Forall_forall in *. intros y Hy.
    specialize (Hx y Hy).
    assert (x <> y) by (intros ->; contradiction). lia.
Qed.

(** The integer keys of [groupby] come in strictly ascending order. *)
Lemma groupby_keys_ascending {R} (key : R -> option Z) (df : list R) :
  StronglySorted Z.lt (map fst (groupby key df)).
Proof.
  apply StronglySorted_NoDup_lt; [|apply groupby_keys_NoDup].
  rewrite groupby_keys.
  eapply StronglySorted_weaken; [|apply sorted_sorted].
  - intros x y Hxy. now apply Z.leb_le.
  - intros x y. unfold leb, Ord_Z.
    destruct (Z.leb_spec x y); [now left | right]. apply Z.leb_le. lia.
  - intros x y z. unfold leb, Ord_Z. rewrite !Z.leb_le. lia.
Qed.

(** ** Transactions over time *)

Lemma transactions_over_time_groups (ui : Session) (df : DataFrame) :
  transactions_over_time ui df
  = map (fun kg => (fst kg, nunique (map BillNo (snd kg))))
        (groupby (fun r => Some (bucket_of ui r)) df).
Proof.
  unfold transactions_over_time, bucket_of.
  destruct (radio Jour (freq_radio ui)); reflexivity.
Qed.

(** X1: the table of [transactions_over_time] has its buckets (days or
    month starts, as the radio says) in strictly ascending order, one
    row for each bucket some row of the frame falls in and no other,
    and the count of a row is the number of distinct BillNo among the
    rows of its bucket. *)
Theorem transactions_over_time_buckets (ui : Session) (df : DataFrame) :
  let ts := transactions_over_time ui df in
  StronglySorted Z.lt (map fst ts) /\
  (forall d, In d (map fst ts) <-> exists r, In r df /\ bucket_of ui r = d) /\
  (forall d n, In (d, n) ts ->
     n = nunique (map BillNo (filter (fun r => bucket_of ui r =? d) df))).
Proof.
  intros ts. unfold ts. rewrite transactions_over_time_groups.
  rewrite map_map. simpl.
  split; [apply groupby_keys_ascending|].
  split.
  - intros d. rewrite groupby_key_In.
    split; intros [r [Hr E]]; exists r; split; congruence.
  - intros d n Hin. apply in_map_iff in Hin.
    destruct Hin as [kg [E Hkg]]. inversion E; subst.
    apply groupby_In_inv in Hkg. destruct Hkg as [-> _].
    do 2 f_equal. apply filter_ext. intros r.
    unfold eqb. destruct (eq_dec _ _) as [E'|E'].
    + inversion E'. symmetry. apply Z.eqb_refl.
    + symmetry. apply Z.eqb_neq. congruence.
Qed.

(** X2: when the rows of a bill fall in one bucket, the counts of
    [transactions_over_time] add up to the "Transactions" metric. *)
Theorem transactions_over_time_total (ui : Session) (df : DataFrame) :
  (forall r1 r2, In r1 df -> In r2 df ->
                 BillNo r1 = BillNo r2 -> BillNo r1 <> None ->
                 bucket_of ui r1 = bucket_of ui r2) ->
  list_sum (map snd (transactions_over_time ui df))
  = Kpi.Transactions (kpi_section df).
Proof.
  intros Hshare. rewrite transactions_over_time_groups, map_map. simpl.
  apply (nunique_by_group (fun r => Some (bucket_of ui r)) BillNo).
  - intros r1 r2 H1 H2 Hb Hn. f_equal. now apply Hshare.
  - discriminate.
Qed.

Lemma transactions_over_time_total_witness :
  list_sum (map snd (transactions_over_time Sample.untouched Sample.df))
  = 2%nat.
Proof.
  rewrite (@transactions_over_time_total Sample.untouched Sample.df).
  - reflexivity.
  - intros r1 r2 H1 H2. simpl in H1, H2.
    destruct H1 as [<-|[<-|[<-|[]]]]; destruct H2 as [<-|[<-|[<-|[]]]];
      simpl; intros E _; solve [reflexivity | discriminate E].
Defined.

(** ** Groups partition the rows that have a key *)

Section GroupPartition.

Context {R K : Type} {EqK : Eq K} {OrdK : Ord K}.
Variable key : R -> option K.

Let in_group (k : K) (r : R) : bool := eqb (key r) (Some k).

Lemma group_skip (r : R) (df : list R) (ks : list K) :
  (forall k, In k ks -> key r <> Some k) ->
  flat_map (fun k => filter (in_group k) (r :: df)) ks
  = flat_map (fun k => filter (in_group k) df) ks.
Proof.
  intros Hno. rewrite !flat_map_concat_map. f_equal.
  apply map_ext_in. intros k Hk. simpl.
  unfold in_group at 1.
  destruct (eqb (key r) (Some k)) eqn:E; [|reflexivity].
  apply eqb_true_iff in E. now apply Hno in Hk.
Qed.

Lemma group_take (r : R) (df : list R) (k0 : K) (ks : list K) :
  NoDup ks -> In k0 ks -> key r = Some k0 ->
  Permutation (flat_map (fun k => filter (in_group k) (r :: df)) ks)
              (r :: flat_map (fun k => filter (in_group k) df) ks).
Proof.
  intros Hnd Hin Hk.
  induction Hnd as [|k ks Hnot Hnd IH]; [destruct Hin|].
  cbn [flat_map].
  destruct (eq_dec k k0) as [->|Hne].
  - rewrite group_skip
      by (intros k Hk' E; rewrite Hk in E; inversion E; subst; contradiction).
    simpl. unfold in_group at 1.
    assert (E : eqb (key r) (Some k0) = true) by now apply eqb_true_iff.
    rewrite E. reflexivity.
  - destruct Hin as [->|Hin]; [congruence|].
    simpl. unfold in_group at 1.
    assert (E : eqb (key r) (Some k) = false).
    { destruct (eqb (key r) (Some k)) eqn:E'; [|reflexivity].
      apply eqb_true_iff in E'. congruence. }
    rewrite E. rewrite (IH Hin). symmetry. apply Permutation_middle.
Qed.

(** The groups of [groupby], one after the other, hold the rows with a
    key, each once. *)
Lemma groupby_partition (df : list R) :
  Permutation (filter (fun r => notna (key r)) df)
              (flat_map snd (groupby key df)).
Proof.
  unfold groupby. rewrite flat_map_concat_map, map_map. simpl.
  rewrite <- flat_map_concat_map.
  assert (Hgen : forall ks,
            NoDup ks ->
            (forall r k, In r df -> key r = Some k -> In k ks) ->
            Permutation (filter (fun r => notna (key r)) df)
                        (flat_map (fun k => filter (in_group k) df) ks)).
  { intros ks Hnd. induction df as [|r l IH]; intros Hcov.
    - simpl. clear. induction ks; simpl; [constructor | assumption].
    - destruct (key r) as [k0|] eqn:Ek.
      + rewrite group_take with (k0 := k0); try assumption.
        * cbn [filter]. rewrite Ek. cbn [notna].
          apply perm_skip. apply IH. intros r' k Hr'. apply Hcov. now right.
        * apply (Hcov r); [now left | assumption].
      + rewrite group_skip by (intros k _; congruence).
        cbn [filter]. rewrite Ek. cbn [notna].
        apply IH. intros r' k Hr'. apply Hcov. now right. }
  apply Hgen; [apply sorted_NoDup, unique_NoDup|].
  intros r k Hr Hk.
  rewrite sorted_In, unique_In, dropna_In, <- Hk. now apply in_map.
Qed.

End GroupPartition.

Lemma sum_int_app (a b : list Z) : sum_int (a ++ b) = sum_int a + sum_int b.
Proof.
  unfold sum_int. induction a as [|x a IH]; simpl; [reflexivity|].
  rewrite IH. lia.
Qed.

Lemma sum_int_perm (a b : list Z) :
  Permutation a b -> sum_int a = sum_int b.
Proof.
  unfold sum_int. induction 1; simpl; lia.
Qed.

Lemma sum_int_groups {G} (rows : G -> DataFrame) (gs : list G) :
  sum_int (map Quantity (flat_map rows gs))
  = sum_int (map (fun g => sum_int (map Quantity (rows g))) gs).
Proof.
  induction gs as [|g gs IH]; simpl; [reflexivity|].
  rewrite map_app, sum_int_app, IH. reflexivity.
Qed.

(** ** Quantities are conserved by the aggregations *)

(** X3: the quantities sold of all products add up to the Quantity of
    the rows that have an Itemname, and the quantities of all baskets to
    the Quantity of the rows that have a BillNo: a row is counted in one
    group and only the rows without a key are left out. *)
Theorem quantity_conserved (df : DataFrame) :
  sum_int (map Products.quantity_sold (Products.agg df))
    = sum_int (map Quantity (filter (fun r => notna (Itemname r)) df)) /\
  sum_int (map Baskets.quantity_total (Baskets.agg df))
    = sum_int (map Quantity (filter (fun r => notna (BillNo r)) df)).
Proof.
  split.
  - unfold Products.agg, Products.groups. rewrite map_map. simpl.
    rewrite <- sum_int_groups.
    apply sum_int_perm, Permutation_map. symmetry. apply groupby_partition.
  - unfold Baskets.agg, Baskets.groups. rewrite map_map. simpl.
    rewrite <- sum_int_groups.
    apply sum_int_perm, Permutation_map. symmetry. apply groupby_partition.
Qed.

(** ** Countries *)

(** Every row [filter_data] returns has a Country. *)
Lemma filter_data_country_defined
    (today : Z) (ui : Session) (df view : DataFrame) (r : Transaction) :
  returned (filter_data today ui df) = inr view ->
  In r view -> notna (Country r) = true.
Proof.
  intros Hret Hview.
  assert (Hin : In r df) by now apply filter_data_In with (1 := Hret).
  assert (Hne : df <> []) by (intros E; rewrite E in Hin; destruct Hin).
  rewrite (filter_data_stages today ui Hne) in Hret.
  destruct (date_bounds _) as [e|b]; [discriminate|].
  assert (Hv2 : In r (period_country_view ui b df)).
  { destruct (empty (period_country_view ui b df)) eqn:Ev2; simpl in Hret.
    - inversion Hret. now subst view.
    - apply empty_false_iff in Ev2.
      destruct (quantity_stage_nonempty ui Ev2) as (lo & hi & _ & _ & E & _).
      rewrite E in Hret. inversion Hret. subst view.
      apply filter_In in Hview. tauto. }
  apply period_country_view_In in Hv2. destruct Hv2 as (_ & _ & Hisin).
  destruct (Country r); [reflexivity | discriminate].
Qed.

(** What [country_analysis] comes to. *)
Lemma country_analysis_outcome `{SortKind} (ui : Session) (df : DataFrame) :
  let n := Z.of_nat (nunique (map Country df)) in
  let top_n := shown_rows n (top_countries_slider ui) in
  match snd (country_analysis ui df) with
  | Some (top, country_stats) =>
      df <> [] /\
      1 <= top_n <= n /\
      Permutation (Countries.agg df) country_stats /\
      Z.of_nat (length country_stats) = n /\
      StronglySorted
        (fun a b => (Countries.revenue b <= Countries.revenue a)%Q)
        country_stats /\
      top = firstn (Z.to_nat top_n) country_stats
  | None => df = [] \/ n = 0
  end.
Proof.
  intros n top_n. unfold country_analysis.
  destruct (empty df) eqn:Hdf;
    [simpl; left; now apply empty_true_iff|].
  apply empty_false_iff in Hdf.
  set (stats := sort_by (descending_float Countries.revenue)
                        (Countries.agg df)).
  assert (Hperm : Permutation (Countries.agg df) stats)
    by apply sort_by_perm.
  assert (Hlen : Z.of_nat (length stats) = n).
  { rewrite <- (Permutation_length Hperm).
    unfold n, Countries.agg, Countries.groups.
    now rewrite length_map, groupby_length. }
  assert (Hsorted :
            StronglySorted
              (fun a b => (Countries.revenue b <= Countries.revenue a)%Q)
              stats).
  { eapply StronglySorted_weaken;
      [|apply sort_by_sorted;
        [apply descending_float_total | apply descending_float_trans]].
    intros x y Hxy. now apply Qle_bool_iff. }
  rewrite Hlen.
  destruct (n =? 0) eqn:E0; [simpl; right; now apply Z.eqb_eq|].
  apply Z.eqb_neq in E0.
  assert (Hpos : 1 <= n) by lia.
  assert (Hrange : 1 <= top_n <= n)
    by (unfold top_n, shown_rows; destruct (top_countries_slider ui);
        slider_cases).
  assert (Hhead : snd (let '(msgs, k) :=
                         if n =? 1 then ([info OneCountry], 1)
                         else ([], slider 1 n (Z.min 10 n)
                                          (top_countries_slider ui))
                       in (msgs, Some (head k stats, stats)))
                  = Some (firstn (Z.to_nat top_n) stats, stats)).
  { destruct (n =? 1) eqn:E1; simpl; unfold head; [|reflexivity].
    apply Z.eqb_eq in E1. do 3 f_equal. lia. }
  rewrite Hhead. repeat (split; [assumption|]). reflexivity.
Qed.

Lemma firstn_NoDup {A} (n : nat) (l : list A) :
  NoDup l -> NoDup (firstn n l).
Proof.
  intros Hnd. rewrite <- (firstn_skipn n l) in Hnd.
  now apply NoDup_app_remove_r in Hnd.
Qed.

(** X5: on a frame that is not empty and has a Country, the full table
    of [country_analysis] holds the country aggregates, one row per
    distinct Country, in order of revenue, largest first, and the
    charted table is its first [top_n] rows, where [top_n] is the
    number the slider holds when that is between 1 and the number of
    countries, and otherwise its default, 10 or the number of
    countries, whichever is smaller.  No table is shown only for an
    empty frame or a frame without any Country. *)
Theorem country_analysis_ranked `{SortKind} (ui : Session) (df : DataFrame) :
  let n := Z.of_nat (nunique (map Country df)) in
  let top_n := shown_rows n (top_countries_slider ui) in
  match snd (country_analysis ui df) with
  | Some (top, country_stats) =>
      df <> [] /\
      1 <= top_n <= n /\
      Permutation (Countries.agg df) country_stats /\
      Z.of_nat (length country_stats) = n /\
      NoDup (map Countries.Country country_stats) /\
      StronglySorted
        (fun a b => (Countries.revenue b <= Countries.revenue a)%Q)
        country_stats /\
      top = firstn (Z.to_nat top_n) country_stats /\
      length top = Z.to_nat top_n
  | None => df = [] \/ n = 0
  end.
Proof.
  intros n top_n.
  pose proof (country_analysis_outcome ui df) as Hout. cbv zeta in Hout.
  fold n in Hout. fold top_n in Hout.
  destruct (snd (country_analysis ui df)) as [[top stats]|]; [|assumption].
  destruct Hout as (Hne & Hrange & Hperm & Hlen & Hsorted & Htop).
  repeat (split; [assumption|]).
  split.
  { apply Permutation_NoDup with (map Countries.Country (Countries.agg df));
      [now apply Permutation_map|].
    unfold Countries.agg, Countries.groups. rewrite map_map. simpl.
    apply (groupby_keys_NoDup Country df). }
  split; [assumption|]. split; [assumption|].
  rewrite Htop, length_firstn. lia.
Qed.

Lemma nunique_positive {A} {EqA : Eq A} (s : list (option A)) (a : A) :
  In (Some a) s -> nunique s <> 0%nat.
Proof.
  intros Hin. unfold nunique.
  assert (Hu : In a (unique (dropna s)))
    by now apply unique_In, dropna_In.
  destruct (unique (dropna s)); [destruct Hu | discriminate].
Qed.

(** X6: on a frame returned by [filter_data] that is not empty,
    [country_analysis] always has a table to show, with at least one
    row: neither of its two "no data" messages can appear. *)
Theorem country_analysis_after_filter `{SortKind}
    (today : Z) (ui : Session) (df view : DataFrame) :
  returned (filter_data today ui df) = inr view ->
  view <> [] ->
  exists top country_stats,
    snd (country_analysis ui view) = Some (top, country_stats) /\
    top <> [] /\
    ~ In (info NoCountryData) (fst (country_analysis ui view)) /\
    ~ In (info NoCountry) (fst (country_analysis ui view)).
Proof.
  intros Hret Hne.
  assert (Hn : nunique (map Country view) <> 0%nat).
  { destruct view as [|r view']; [congruence|].
    pose proof (filter_data_country_defined today ui df r Hret
                  (or_introl eq_refl)) as Hc.
    destruct (Country r) as [c|] eqn:Ec; [|discriminate].
    apply nunique_positive with c. rewrite <- Ec. now left. }
  pose proof (country_analysis_outcome ui view) as Hout. cbv zeta in Hout.
  assert (Hmsgs : ~ In (info NoCountryData) (fst (country_analysis ui view))
                  /\ ~ In (info NoCountry) (fst (country_analysis ui view))).
  { unfold country_analysis.
    apply empty_false_iff in Hne. rewrite Hne.
    rewrite <- (Permutation_length (sort_by_perm _ _)).
    unfold Countries.agg, Countries.groups.
    rewrite length_map, groupby_length.
    destruct (Z.of_nat (nunique (map Country view)) =? 0) eqn:E0;
      [apply Z.eqb_eq in E0; lia|].
    destruct (Z.of_nat (nunique (map Country view)) =? 1); simpl;
      split; intros Hin; try destruct Hin as [Hin|[]]; try discriminate;
      try assumption. }
  destruct (snd (country_analysis ui view)) as [[top stats]|];
    [|destruct Hout; [congruence | lia]].
  exists top, stats. split; [reflexivity|]. split; [|assumption].
  destruct Hout as (_ & Hrange & _ & Hlen & _ & Htop).
  intros E. apply (f_equal (@length _)) in E.
  rewrite Htop, length_firstn in E. simpl in E. lia.
Qed.

Lemma country_analysis_after_filter_witness :
  exists top country_stats,
    snd (@country_analysis stable Sample.untouched Sample.df)
      = Some (top, country_stats) /\
    top <> [].
Proof.
  assert (Hne : Sample.df <> []) by discriminate.
  destruct (@country_analysis_after_filter stable 0 Sample.untouched
              Sample.df Sample.df eq_refl Hne)
    as (top & stats & E & Htop & _).
  exists top, stats. split; assumption.
Defined.

(** ** More on the filters *)

Lemma filter_none {A} (p : A -> bool) (l : list A) :
  (forall x, In x l -> p x = false) -> filter p l = [].
Proof.
  induction l as [|x l IH]; simpl; intros Hall; [reflexivity|].
  rewrite (Hall x) by auto. apply IH. auto.
Qed.

(** X9: a period whose end is before its start leaves no row:
    [filter_data] returns the empty frame with the warning on period
    and country, whatever the other widgets hold. *)
Theorem filter_data_inverted_period
    (today : Z) (ui : Session) (df : DataFrame) (start_date end_date : Z) :
  df <> [] ->
  periode_filtre ui = Some (DateTuple [start_date; end_date]) ->
  end_date < start_date ->
  filter_data today ui df =
    {| source_after := df;
       sidebar := [warning NoRowsAfterPeriodCountry];
       returned := inr [] |}.
Proof.
  intros Hne Hperiod Hinv.
  rewrite (filter_data_stages today ui Hne), Hperiod. simpl.
  assert (Hv2 : period_country_view ui (start_date, end_date) df = []).
  { unfold period_country_view. simpl.
    rewrite (@filter_none _ (in_period start_date end_date) df);
      [reflexivity|].
    intros r _. unfold in_period.
    destruct (start_date <=? InvoiceDate r) eqn:E1; [|reflexivity].
    apply Z.leb_le in E1. simpl. apply Z.leb_gt. lia. }
  rewrite Hv2. reflexivity.
Qed.

Lemma filter_data_inverted_period_witness :
  returned (filter_data 0
              (mkSession (Some (DateTuple [18659; 18632]))
                         None None None None None None)
              Sample.df)
  = inr [].
Proof.
  assert (Hne : Sample.df <> []) by discriminate.
  rewrite (@filter_data_inverted_period 0
             (mkSession (Some (DateTuple [18659; 18632]))
                        None None None None None None)
             Sample.df 18659 18632 Hne eq_refl eq_refl).
  reflexivity.
Defined.

(** X10: when the rows left by the period and country filters all have
    the same Quantity, [filter_data] returns them all with the
    information message on that Quantity: the slider is not shown and
    what it held is not used. *)
Theorem filter_data_single_quantity
    (today : Z) (ui : Session) (df : DataFrame) (b : Z * Z) (q : Z) :
  df <> [] ->
  date_bounds (date_input (period_of today df) (periode_filtre ui)) = inr b ->
  period_country_view ui b df <> [] ->
  (forall r, In r (period_country_view ui b df) -> Quantity r = q) ->
  filter_data today ui df =
    {| source_after := df;
       sidebar := [info (AllQuantityEqual q)];
       returned := inr (period_country_view ui b df) |}.
Proof.
  intros Hne Hb Hv2 Hq.
  rewrite (filter_data_stages today ui Hne), Hb.
  apply empty_false_iff in Hv2. rewrite Hv2.
  apply empty_false_iff in Hv2.
  destruct (quantity_stage_nonempty ui Hv2) as (lo & hi & Hlo & Hhi & -> & ->).
  apply series_min_spec in Hlo. destruct Hlo as [Hlo _].
  apply series_max_spec in Hhi. destruct Hhi as [Hhi _].
  apply in_map_iff in Hlo. destruct Hlo as [r1 [E1 H1]].
  apply in_map_iff in Hhi. destruct Hhi as [r2 [E2 H2]].
  rewrite (Hq r1 H1) in E1. rewrite (Hq r2 H2) in E2. subst lo hi.
  unfold threshold_of. rewrite Z.eqb_refl.
  rewrite filter_all; [reflexivity|].
  intros r Hr. apply Z.leb_le. rewrite (Hq r Hr). lia.
Qed.

Lemma filter_data_single_quantity_witness :
  sidebar (filter_data 0
             (mkSession None None (Some 7) None None None None)
             Sample.tie_df)
  = [info (AllQuantityEqual 2)].
Proof.
  assert (Hne : Sample.tie_df <> []) by discriminate.
  rewrite (@filter_data_single_quantity 0
             (mkSession None None (Some 7) None None None None)
             Sample.tie_df (period_of 0 Sample.tie_df) 2 Hne eq_refl).
  - reflexivity.
  - vm_compute. discriminate.
  - intros r Hr. vm_compute in Hr.
    destruct Hr as [<-|[<-|[]]]; reflexivity.
Defined.

(** The frame returned, in terms of the stages. *)
Lemma filter_data_view
    (today : Z) (ui : Session) (df view : DataFrame) (b : Z * Z) :
  df <> [] ->
  date_bounds (date_input (period_of today df) (periode_filtre ui)) = inr b ->
  returned (filter_data today ui df) = inr view ->
  (period_country_view ui b df = [] /\ view = []) \/
  (exists lo hi,
     series_min (map Quantity (period_country_view ui b df)) = Some lo /\
     series_max (map Quantity (period_country_view ui b df)) = Some hi /\
     view = filter (fun r => threshold_of ui lo hi <=? Quantity r)
                   (period_country_view ui b df)).
Proof.
  intros Hne Hb Hret.
  rewrite (filter_data_stages today ui Hne), Hb in Hret.
  destruct (empty (period_country_view ui b df)) eqn:Ev2; simpl in Hret.
  - left. apply empty_true_iff in Ev2. rewrite Ev2 in *.
    inversion Hret. auto.
  - right. apply empty_false_iff in Ev2.
    destruct (quantity_stage_nonempty ui Ev2) as (lo & hi & Hlo & Hhi & E & _).
    rewrite E in Hret. inversion Hret. eauto.
Qed.

(** X11: every row [filter_data] returns is a row of the frame, lies in
    the period read from the date widget, has a Country, which is one
    of those selected when a selection was made, and, when the slider
    holds a threshold between the smallest and the largest Quantity
    left by the period and country filters, has at least that
    Quantity. *)
Theorem filter_data_sound
    (today : Z) (ui : Session) (df view : DataFrame) (b : Z * Z)
    (r : Transaction) :
  df <> [] ->
  date_bounds (date_input (period_of today df) (periode_filtre ui)) = inr b ->
  returned (filter_data today ui df) = inr view ->
  In r view ->
  In r df /\
  fst b <= InvoiceDate r <= snd b /\
  (exists c, Country r = Some c /\
             forall sel, filtre_pays ui = Some sel -> In c sel) /\
  (forall t lo hi,
     filtre_quantite ui = Some t ->
     series_min (map Quantity (period_country_view ui b df)) = Some lo ->
     series_max (map Quantity (period_country_view ui b df)) = Some hi ->
     lo <= t <= hi ->
     t <= Quantity r).
Proof.
  intros Hne Hb Hret Hr.
  destruct (filter_data_view today ui Hne Hb Hret)
    as [[_ ->]|(lo & hi & Hlo & Hhi & ->)]; [destruct Hr|].
  apply filter_In in Hr. destruct Hr as [Hv2 Ht]. apply Z.leb_le in Ht.
  pose proof Hv2 as Hin.
  apply period_country_view_In in Hin. destruct Hin as (Hdf & Hp & Hc).
  split; [assumption|]. split.
  { unfold in_period in Hp. apply andb_prop in Hp.
    rewrite !Z.leb_le in Hp. assumption. }
  split.
  { apply isin_true_iff in Hc. destruct Hc as [c [Ec Hsel]].
    exists c. split; [assumption|].
    intros sel Esel. unfold selected_in, multiselect in Hsel.
    rewrite Esel in Hsel. apply filter_In in Hsel. tauto. }
  intros t lo' hi' Et Hlo' Hhi' Hin.
  rewrite Hlo in Hlo'. rewrite Hhi in Hhi'.
  inversion Hlo'. inversion Hhi'. subst lo' hi'.
  unfold threshold_of in Ht. rewrite Et in Ht.
  slider_cases.
Qed.

(** X12: a row of the frame that lies in the period read from the date
    widget, has a Country that is selected (or no selection was made)
    and a Quantity that reaches the threshold (or none was set) is in
    the frame [filter_data] returns. *)
Theorem filter_data_complete
    (today : Z) (ui : Session) (df view : DataFrame) (b : Z * Z)
    (r : Transaction) (c : string) :
  date_bounds (date_input (period_of today df) (periode_filtre ui)) = inr b ->
  returned (filter_data today ui df) = inr view ->
  In r df ->
  fst b <= InvoiceDate r <= snd b ->
  Country r = Some c ->
  (forall sel, filtre_pays ui = Some sel -> In c sel) ->
  (forall t, filtre_quantite ui = Some t -> t <= Quantity r) ->
  In r view.
Proof.
  intros Hb Hret Hdf Hp Ec Hsel Ht.
  assert (Hne : df <> []) by (intros E; rewrite E in Hdf; destruct Hdf).
  assert (Hperiod : in_period (fst b) (snd b) r = true).
  { unfold in_period. apply andb_true_intro.
    rewrite !Z.leb_le. assumption. }
  assert (Hv2 : In r (period_country_view ui b df)).
  { apply period_country_view_In. repeat split; try assumption.
    rewrite Ec. simpl. apply mem_true_iff.
    assert (Hown : In c (sorted (unique (dropna (map Country
                     (filter (in_period (fst b) (snd b)) df)))))).
    { rewrite sorted_In, unique_In, dropna_In, <- Ec.
      apply in_map. apply filter_In. auto. }
    unfold selected_in, multiselect.
    destruct (filtre_pays ui) as [sel|] eqn:Esel; [|assumption].
    apply filter_In. split; [now apply Hsel|]. now apply mem_true_iff. }
  destruct (filter_data_view today ui Hne Hb Hret)
    as [[E _]|(lo & hi & Hlo & Hhi & ->)];
    [rewrite E in Hv2; destruct Hv2|].
  apply filter_In. split; [assumption|]. apply Z.leb_le.
  apply series_min_spec in Hlo. destruct Hlo as [_ Hlo].
  assert (lo <= Quantity r) by (apply Hlo; now apply in_map).
  unfold threshold_of.
  destruct (filtre_quantite ui) as [t|] eqn:Et;
    [specialize (Ht t eq_refl)|]; slider_cases.
Qed.

Lemma filter_data_sound_witness :
  let r := load_row Sample.no_number Sample.mug_b1 in
  In r Sample.df /\ 18632 <= InvoiceDate r <= 18659.
Proof.
  assert (Hne : Sample.df <> []) by discriminate.
  destruct (@filter_data_sound 0 Sample.chosen Sample.df
              [load_row Sample.no_number Sample.mug_b1] (18632, 18659)
              (load_row Sample.no_number Sample.mug_b1)
              Hne eq_refl eq_refl (or_introl eq_refl))
    as (Hin & Hperiod & _).
  split; assumption.
Defined.

Lemma filter_data_complete_witness :
  In (load_row Sample.no_number Sample.mug_b1)
     [load_row Sample.no_number Sample.mug_b1].
Proof.
  apply (@filter_data_complete 0 Sample.chosen Sample.df
           [load_row Sample.no_number Sample.mug_b1] (18632, 18659)
           (load_row Sample.no_number Sample.mug_b1) "UK"%string
           eq_refl eq_refl (or_introl eq_refl)).
  - vm_compute. split; discriminate.
  - reflexivity.
  - intros sel E. inversion E. now left.
  - intros t E. inversion E. vm_compute. discriminate.
Defined.

(** ** Counts of distinct values *)

Lemma dropna_length {A} (s : list (option A)) :
  (length (dropna s) <= length s)%nat.
Proof.
  induction s as [|[a|] s IH]; simpl; lia.
Qed.

Lemma nunique_le_length {A} {EqA : Eq A} (s : list (option A)) :
  (nunique s <= length s)%nat.
Proof.
  unfold nunique. etransitivity; [|apply dropna_length].
  apply NoDup_incl_length; [apply unique_NoDup|].
  intros a. apply unique_In.
Qed.

Lemma nunique_incl {A} {EqA : Eq A} (s s' : list (option A)) :
  (forall a, In (Some a) s -> In (Some a) s') ->
  (nunique s <= nunique s')%nat.
Proof.
  intros Hincl. unfold nunique.
  apply NoDup_incl_length; [apply unique_NoDup|].
  intros a. rewrite !unique_In, !dropna_In. apply Hincl.
Qed.

Lemma nunique_filter {A} {EqA : Eq A}
    (col : Transaction -> option A) (keep : Transaction -> bool)
    (df : DataFrame) :
  (nunique (map col (filter keep df)) <= nunique (map col df))%nat.
Proof.
  apply nunique_incl. intros a. rewrite !in_map_iff.
  intros [r [E Hr]]. apply filter_In in Hr. exists r. tauto.
Qed.

(** ** KPI *)

(** X13: filtering never raises a count of [kpi_section]: the numbers
    of distinct bills, items and customers of the frame [filter_data]
    returns are at most those of the frame it was given, and each is at
    most the number of rows returned. *)
Theorem kpi_counts_shrink
    (today : Z) (ui : Session) (df view : DataFrame) :
  returned (filter_data today ui df) = inr view ->
  (Kpi.Transactions (kpi_section view)
     <= Kpi.Transactions (kpi_section df))%nat /\
  (Kpi.Articles (kpi_section view) <= Kpi.Articles (kpi_section df))%nat /\
  (exists n m,
     Kpi.Clients (kpi_section view) = Kpi.Count n /\
     Kpi.Clients (kpi_section df) = Kpi.Count m /\
     (n <= m)%nat /\ (n <= length view)%nat) /\
  (Kpi.Transactions (kpi_section view) <= length view)%nat /\
  (Kpi.Articles (kpi_section view) <= length view)%nat.
Proof.
  intros Hret. destruct (filter_data_keeps _ _ _ Hret) as [keep ->].
  simpl. repeat split; try apply nunique_filter.
  - exists (nunique (map CustomerID (filter keep df))),
           (nunique (map CustomerID df)).
    repeat split; [apply nunique_filter|].
    rewrite <- (length_map CustomerID (filter keep df)).
    apply nunique_le_length.
  - rewrite <- (length_map BillNo (filter keep df)). apply nunique_le_length.
  - rewrite <- (length_map Itemname (filter keep df)).
    apply nunique_le_length.
Qed.

Lemma kpi_counts_shrink_witness :
  (Kpi.Transactions (kpi_section [load_row Sample.no_number Sample.mug_b1])
   <= Kpi.Transactions (kpi_section Sample.df))%nat.
Proof.
  destruct (@kpi_counts_shrink 0 Sample.chosen Sample.df
              [load_row Sample.no_number Sample.mug_b1] eq_refl)
    as (Hle & _).
  exact Hle.
Defined.

(** ** Ranked products, row by row *)

Lemma top_products_prefix `{SortKind} (ui : Session) (df : DataFrame)
    (top : list Products.row) :
  snd (top_products ui df) = Some top ->
  exists ranked k,
    Permutation (Products.agg df) ranked /\ top = firstn k ranked.
Proof.
  unfold top_products.
  destruct (empty df); [discriminate|].
  set (ranked :=
         match radio QuantiteVendue (top_mode ui) with
         | QuantiteVendue =>
             sort_by (descending_int Products.quantity_sold) (Products.agg df)
         | ChiffreAffaires =>
             sort_by (descending_float Products.revenue) (Products.agg df)
         end).
  assert (Hperm : Permutation (Products.agg df) ranked)
    by (unfold ranked; destruct (radio _ _); apply sort_by_perm).
  destruct (Z.of_nat (length ranked) =? 0); [discriminate|].
  destruct (Z.of_nat (length ranked) =? 1); simpl; intros E;
    inversion E; unfold head; eauto.
Qed.

Lemma products_agg_In (df : DataFrame) (row : Products.row) :
  In row (Products.agg df) ->
  let rows :=
    filter (fun r => eqb (Itemname r) (Some (Products.Itemname row))) df in
  rows <> [] /\
  Products.quantity_sold row = sum_int (map Quantity rows) /\
  Products.revenue row = sum_float (map Revenue rows) /\
  Products.n_transactions row = nunique (map BillNo rows).
Proof.
  unfold Products.agg, Products.groups. rewrite in_map_iff.
  intros [kg [<- Hkg]]. simpl.
  apply groupby_In_inv in Hkg. destruct Hkg as [Hg [r [Hr Hk]]].
  rewrite <- Hg. repeat split.
  intros E.
  assert (Hin : In r (snd kg)).
  { rewrite Hg. apply filter_In. split; [assumption|].
    now apply eqb_true_iff. }
  rewrite E in Hin. destruct Hin.
Qed.

(** X14: in the table of [top_products] no product name comes twice,
    and each row carries the figures of the rows of the frame that bear
    its name, of which there is at least one: the sum of their
    Quantity, the sum of their Revenue and the number of their distinct
    bills, which is at most the "Transactions" metric. *)
Theorem top_products_rows `{SortKind} (ui : Session) (df : DataFrame)
    (top : list Products.row) :
  snd (top_products ui df) = Some top ->
  NoDup (map Products.Itemname top) /\
  forall row, In row top ->
    let rows :=
      filter (fun r => eqb (Itemname r) (Some (Products.Itemname row))) df in
    rows <> [] /\
    Products.quantity_sold row = sum_int (map Quantity rows) /\
    Products.revenue row = sum_float (map Revenue rows) /\
    Products.n_transactions row = nunique (map BillNo rows) /\
    (Products.n_transactions row <= Kpi.Transactions (kpi_section df))%nat.
Proof.
  intros Hsome.
  destruct (top_products_prefix ui df Hsome) as (ranked & k & Hperm & ->).
  split.
  - rewrite <- firstn_map. apply firstn_NoDup.
    apply Permutation_NoDup with (map Products.Itemname (Products.agg df));
      [now apply Permutation_map|].
    unfold Products.agg, Products.groups. rewrite map_map. simpl.
    apply (groupby_keys_NoDup Itemname df).
  - intros row Hrow rows.
    apply firstn_In in Hrow.
    apply Permutation_in with (l' := Products.agg df) in Hrow;
      [|now symmetry].
    destruct (products_agg_In df row Hrow) as (Hne & Hq & Hrev & Hn).
    repeat split; try assumption.
    rewrite Hn. simpl. apply nunique_filter.
Qed.

Lemma top_products_rows_witness :
  exists top,
    snd (@top_products stable Sample.untouched Sample.df) = Some top /\
    NoDup (map Products.Itemname top).
Proof.
  eexists. split; [reflexivity|].
  destruct (@top_products_rows stable Sample.untouched Sample.df _ eq_refl)
    as [Hnd _].
  exact Hnd.
Defined.

(** ** The basket-size histogram, row by row *)

Lemma count_occ_map_filter {A} (f : A -> nat) (l : list A) (v : nat) :
  count_occ Nat.eq_dec (map f l) v
  = length (filter (fun x => Nat.eqb (f x) v) l).
Proof.
  induction l as [|x l IH]; simpl; [reflexivity|].
  destruct (Nat.eq_dec (f x) v) as [E|E].
  - apply Nat.eqb_eq in E. rewrite E. simpl. now rewrite IH.
  - apply Nat.eqb_neq in E. now rewrite E.
Qed.

Lemma basket_size_counts `{SortKind} (df : DataFrame) (stats : Baskets.stats) :
  snd (basket_analysis df) = Some stats ->
  Permutation
    (map (fun v => (v, count_occ Nat.eq_dec
                         (map Baskets.basket_size (Baskets.agg df)) v))
         (unique (map Baskets.basket_size (Baskets.agg df))))
    (Baskets.size_counts stats).
Proof.
  unfold basket_analysis. destruct (empty df); [discriminate|].
  simpl. intros E. inversion E. simpl.
  etransitivity; [|apply sort_by_perm].
  unfold value_counts. apply sort_by_perm.
Qed.

Lemma baskets_agg_size (df : DataFrame) (b : Baskets.row) :
  In b (Baskets.agg df) ->
  (Baskets.basket_size b <= nunique (map Itemname df))%nat.
Proof.
  unfold Baskets.agg, Baskets.groups. rewrite in_map_iff.
  intros [kg [<- Hkg]]. simpl.
  apply groupby_In_inv in Hkg. destruct Hkg as [-> _].
  apply nunique_filter.
Qed.

(** X15: each row (size, count) of the basket-size histogram stands for
    a size that some basket has; its count is the number of baskets of
    that size, at least 1 and at most the "Transactions" metric; and
    the size is at most the "Articles distincts" metric. *)
Theorem basket_histogram_rows `{SortKind} (df : DataFrame)
    (stats : Baskets.stats) (size count : nat) :
  snd (basket_analysis df) = Some stats ->
  In (size, count) (Baskets.size_counts stats) ->
  (exists b, In b (Baskets.agg df) /\ Baskets.basket_size b = size) /\
  count = length (filter (fun b => Nat.eqb (Baskets.basket_size b) size)
                         (Baskets.agg df)) /\
  (1 <= count <= Kpi.Transactions (kpi_section df))%nat /\
  (size <= Kpi.Articles (kpi_section df))%nat.
Proof.
  intros Hsome Hin.
  apply Permutation_in with (1 := Permutation_sym (basket_size_counts df Hsome))
    in Hin.
  apply in_map_iff in Hin. destruct Hin as [v [E Hv]].
  inversion E; subst. clear E.
  apply (proj1 (unique_In _ _)) in Hv.
  pose proof Hv as Hb. apply in_map_iff in Hb. destruct Hb as [b [Eb Hb]].
  split; [eauto|].
  split; [apply count_occ_map_filter|].
  split; [split|].
  - now apply count_occ_In.
  - etransitivity; [apply count_occ_bound|].
    simpl. unfold Baskets.agg, Baskets.groups.
    now rewrite !length_map, groupby_length.
  - rewrite <- Eb. simpl. now apply baskets_agg_size.
Qed.

Lemma basket_histogram_rows_witness :
  exists b, In b (Baskets.agg Sample.df) /\ Baskets.basket_size b = 2%nat.
Proof.
  assert (Hin : In (2%nat, 1%nat)
                   (Baskets.size_counts
                      {| Baskets.mean_basket_size := Some (3 # 2)%Q;
                         Baskets.mean_quantity_total := Some (4 # 2)%Q;
                         Baskets.mean_revenue := Some (14 # 2)%Q;
                         Baskets.size_counts :=
                           [(1%nat, 1%nat); (2%nat, 1%nat)] |}))
    by (right; left; reflexivity).
  destruct (@basket_histogram_rows stable Sample.df _ 2%nat 1%nat
              eq_refl Hin) as [Hb _].
  exact Hb.
Defined.



(** ** Loaded rows *)

Lemma load_row_fields (parse_numeric : string -> Table.scalar)
    (quantity_dtype price_dtype : Table.dtype)
    (r : Table.RawRow) (t : Table.Transaction) :
  Table.load_row parse_numeric quantity_dtype price_dtype r = inr t ->
  Table.astype_int
    (Table.fillna0
       (Table.as_dtype quantity_dtype
          (Table.to_numeric parse_numeric (Table.quantity r))))
    = inr (Table.Quantity t) /\
  Table.Date t = Table.date r /\
  Table.InvoiceDate t = option_map dt_date (Table.date r) /\
  Table.InvoiceMonth t = option_map to_month_start (Table.date r) /\
  Table.Hour t = option_map dt_hour (Table.date r) /\
  Table.Weekday t = option_map dt_day_name (Table.date r).
Proof.
  unfold Table.load_row.
  destruct (Table.astype_int _) as [e|n]; [discriminate|].
  intros E. inversion E. simpl. repeat split.
Qed.

(** X17: in a frame [load_data] returns, a row whose date is NULL has
    no Date, InvoiceDate, InvoiceMonth, Hour or Weekday; in every other
    row the Hour is between 0 and 23, the Weekday is one of the seven
    day names, and InvoiceDate and Hour locate the timestamp: Date lies
    in hour Hour of day InvoiceDate. *)
Theorem load_data_timestamp (parse_numeric : string -> Table.scalar)
    (table : list Table.RawRow) :
  match Table.load_data parse_numeric table with
  | inr frame =>
      Forall2
        (fun r t =>
           match Table.date r with
           | None =>
               Table.Date t = None /\ Table.InvoiceDate t = None /\
               Table.InvoiceMonth t = None /\ Table.Hour t = None /\
               Table.Weekday t = None
           | Some ts =>
               Table.Date t = Some ts /\
               exists d h w,
                 Table.InvoiceDate t = Some d /\
                 Table.Hour t = Some h /\
                 Table.Weekday t = Some w /\
                 0 <= h <= 23 /\
                 In w weekday_order /\
                 d * ns_per_day + h * ns_per_hour <= ts /\
                 ts < d * ns_per_day + (h + 1) * ns_per_hour
           end)
        table frame
  | inl _ => True
  end.
Proof.
  unfold Table.load_data.
  destruct (Table.traverse _ table) as [e|frame] eqn:E; [exact I|].
  apply traverse_Forall2 with (2 := E).
  intros r t _ Hrow. apply load_row_fields in Hrow.
  destruct Hrow as (_ & HDate & HDay & HMonth & HHour & HWeekday).
  destruct (Table.date r) as [ts|]; simpl in *; [|auto].
  split; [assumption|].
  exists (dt_date ts), (dt_hour ts), (dt_day_name ts).
  repeat (split; [assumption|]).
  split; [apply dt_hour_range|].
  split; [apply dt_day_name_In|].
  unfold dt_date, dt_hour.
  assert (Hd : ns_per_day <> 0) by discriminate.
  assert (Hh : 0 < ns_per_hour) by reflexivity.
  pose proof (Z.div_mod ts ns_per_day Hd) as Hday.
  pose proof (Z.div_mod (ts mod ns_per_day) ns_per_hour
                ltac:(discriminate)) as Hhour.
  pose proof (Z.mod_pos_bound (ts mod ns_per_day) ns_per_hour Hh)
    as Hrest.
  set (d := ts / ns_per_day) in *.
  set (m := ts mod ns_per_day) in *.
  set (h := m / ns_per_hour) in *.
  set (s := m mod ns_per_hour) in *.
  clearbody d m h s. unfold ns_per_day, ns_per_hour in *. lia.
Qed.

Lemma round_int_small (z : Z) :
  Z.abs z <= 2 ^ 53 -> Float64.round_int z = z.
Proof.
  intros Hz. unfold Float64.round_int.
  apply Z.leb_le in Hz. now rewrite Hz.
Qed.

Lemma to_int64_integer (z : Z) :
  Float64.int64_min <= z <= Float64.int64_max ->
  Float64.to_int64 (inject_Z z) = z.
Proof.
  intros Hz. unfold Float64.to_int64. simpl. rewrite Z.quot_1_r.
  destruct ((Float64.int64_min <=? z) && (z <=? Float64.int64_max)) eqn:E;
    [reflexivity|].
  apply andb_false_iff in E. rewrite !Z.leb_gt in E. lia.
Qed.

(** X18: in a frame [load_data] returns, an integer Quantity is loaded
    as it is when the Quantity column holds integers only, and also,
    in a column made float64 by a NULL or a float, when it is at most
    [2^53] in magnitude; a finite float is cut toward zero when the
    result fits an int64 and loaded as the smallest int64 when it does
    not; NaN is loaded as 0. *)
Theorem load_data_quantity (parse_numeric : string -> Table.scalar)
    (table : list Table.RawRow) :
  match Table.load_data parse_numeric table with
  | inr frame =>
      Forall2
        (fun r t =>
           match Table.to_numeric parse_numeric (Table.quantity r) with
           | Table.SInt z =>
               (Table.dtype_of
                  (map (fun r =>
                          Table.to_numeric parse_numeric (Table.quantity r))
                       table) = Table.int64 ->
                Table.Quantity t = z) /\
               (Z.abs z <= 2 ^ 53 -> Table.Quantity t = z)
           | Table.SFloat (Float64.Finite q) =>
               let n := Z.quot (Qnum q) (Zpos (Qden q)) in
               (Float64.int64_min <= n <= Float64.int64_max ->
                Table.Quantity t = n /\
                (0 <= q -> inject_Z n <= q /\ q < inject_Z n + 1)%Q /\
                (q <= 0 -> inject_Z n - 1 < q /\ q <= inject_Z n)%Q) /\
               (~ Float64.int64_min <= n <= Float64.int64_max ->
                Table.Quantity t = Float64.int64_min)
           | Table.SFloat Float64.NaN => Table.Quantity t = 0
           | Table.SFloat (Float64.Infinite _) => False
           end)
        table frame
  | inl _ => True
  end.
Proof.
  unfold Table.load_data.
  destruct (Table.traverse _ table) as [e|frame] eqn:E; [exact I|].
  apply traverse_Forall2 with (2 := E).
  intros r t _ Hrow. apply load_row_fields in Hrow.
  destruct Hrow as (Hq & _).
  destruct (Table.to_numeric parse_numeric (Table.quantity r))
    as [z|[q|neg|]].
  - split.
    + intros Hint. rewrite Hint in Hq. simpl in Hq. now inversion Hq.
    + intros Hz.
      destruct (Table.dtype_of _); simpl in Hq; inversion Hq as [Hn];
        [reflexivity|].
      unfold Float64.of_int. rewrite (round_int_small _ Hz).
      apply to_int64_integer.
      unfold Float64.int64_min, Float64.int64_max.
      assert (2 ^ 53 < 2 ^ 63) by reflexivity. lia.
  - assert (Hn : Table.Quantity t = Float64.to_int64 q)
      by (destruct (Table.dtype_of _); simpl in Hq; now inversion Hq).
    cbv zeta. rewrite Hn. unfold Float64.to_int64.
    destruct q as [num den]. simpl.
    destruct ((Float64.int64_min <=? num ÷ Z.pos den)
              && (num ÷ Z.pos den <=? Float64.int64_max)) eqn:Efit.
    + split; [|intros Hout; exfalso; apply Hout;
               apply andb_prop in Efit; rewrite !Z.leb_le in Efit;
               assumption].
      intros _. split; [reflexivity|].
      unfold Qle, Qlt. simpl.
      assert (Hden : 0 < Z.pos den) by reflexivity.
      assert (Hnz : Z.pos den <> 0) by discriminate.
      pose proof (Z.quot_rem' num (Z.pos den)) as Hqr.
      pose proof (Z.rem_bound_abs num (Z.pos den) Hnz) as Habs.
      split; intros Hsign; rewrite Z.mul_1_r in Hsign.
      * pose proof (Z.rem_nonneg num (Z.pos den) Hnz Hsign) as Hrem.
        set (k := num ÷ Z.pos den) in *.
        set (m := Z.rem num (Z.pos den)) in *.
        clearbody k m. lia.
      * pose proof (Z.rem_nonpos num (Z.pos den) Hnz Hsign) as Hrem.
        set (k := num ÷ Z.pos den) in *.
        set (m := Z.rem num (Z.pos den)) in *.
        clearbody k m. lia.
    + split; [|reflexivity].
      intros Hfit. exfalso.
      apply andb_false_iff in Efit. rewrite !Z.leb_gt in Efit. lia.
  - destruct (Table.dtype_of _); discriminate.
  - destruct (Table.dtype_of _); simpl in Hq; now inversion Hq.
Qed.

(** A float beyond the int64 range is loaded as the smallest int64. *)
Example quantity_beyond_int64 :
  Table.load_data Sample.not_a_number
    [Table.mkRaw None None
       (Table.Float (Float64.Finite (inject_Z (10 ^ 19))))
       None Table.Null None None]
  = inr [Table.mkTransaction None None Float64.int64_min None
           (Table.SFloat Float64.NaN) None None (Table.SFloat Float64.NaN)
           None None None None].
Proof. reflexivity. Qed.

(** An integer above [2^53] loses its last bit in a column that a NULL
    made float64. *)
Example quantity_through_float64 :
  match Table.load_data Sample.not_a_number
          [Table.mkRaw None None (Table.Int (2 ^ 53 + 1)) None
             Table.Null None None;
           Table.mkRaw None None Table.Null None Table.Null None None] with
  | inr frame => map Table.Quantity frame = [2 ^ 53; 0]
  | inl _ => False
  end.
Proof. reflexivity. Qed.

(** The rounding of integers agrees with the rounding of rationals. *)
Example round_int_round64 :
  forallb (fun z => match Float64.round64 (inject_Z z) with
                    | Float64.Finite q =>
                        Qeq_bool q (inject_Z (Float64.round_int z))
                    | _ => false
                    end)
          [0; 1; -1; 2 ^ 53; 2 ^ 53 + 1; 2 ^ 53 + 2; 2 ^ 53 + 3;
           - (2 ^ 53 + 1); 2 ^ 63 - 1; - 2 ^ 63; 10 ^ 18 + 1;
           2 ^ 62 + 2 ^ 9; 2 ^ 62 + 2 ^ 9 + 1; 2 ^ 62 + 3 * 2 ^ 9]
  = true.
Proof. vm_compute. reflexivity. Qed.

(** ** The two loaders *)

Lemma traverse_map_Forall2 {A B C D} (f : B -> Table.error + D)
    (h : A -> B) (g : A -> C) (R : C -> D -> Prop) (l : list A) :
  (forall x, In x l -> exists y, f (h x) = inr y /\ R (g x) y) ->
  exists l', Table.traverse f (map h l) = inr l' /\
             Forall2 R (map g l) l'.
Proof.
  induction l as [|x l IH]; simpl; intros Hall.
  - exists []. split; [reflexivity | constructor].
  - destruct (Hall x (or_introl eq_refl)) as (y & Ey & Hy).
    destruct IH as (l' & El' & Hl'); [intros x' Hx'; apply Hall; now right|].
    exists (y :: l'). rewrite Ey, El'. split; [reflexivity|].
    now constructor.
Qed.

(** A Quantity of at most [2^53] in magnitude is the same in both
    loaders, whatever the dtype of the column. *)
Lemma quantity_plain (parse_numeric : string -> option Q)
    (d : Table.dtype) (c : cell) :
  Z.abs (astype_int (fillna0 (to_numeric parse_numeric c))) <= 2 ^ 53 ->
  Table.astype_int
    (Table.fillna0
       (Table.as_dtype d
          (Table.to_numeric (plain_reader parse_numeric) (plain_value c))))
  = inr (astype_int (fillna0 (to_numeric parse_numeric c))).
Proof.
  assert (Hfloat : forall q,
             Z.abs (astype_int q) <= 2 ^ 53 ->
             Table.astype_int
               (Table.fillna0
                  (Table.as_dtype d (Table.SFloat (Float64.Finite q))))
             = inr (astype_int q)).
  { intros q Hq. destruct d; simpl; f_equal;
      unfold Float64.to_int64; unfold astype_int in *;
      assert (Hfit : (Float64.int64_min <=? Qnum q ÷ Z.pos (Qden q))
                     && (Qnum q ÷ Z.pos (Qden q) <=? Float64.int64_max)
                     = true)
        by (apply andb_true_intro; rewrite !Z.leb_le;
            unfold Float64.int64_min, Float64.int64_max;
            assert (2 ^ 53 < 2 ^ 63) by reflexivity; lia);
      now rewrite Hfit. }
  assert (Hnan : Table.astype_int
                   (Table.fillna0
                      (Table.as_dtype d (Table.SFloat Float64.NaN)))
                 = inr (astype_int (fillna0 None)))
    by (destruct d; reflexivity).
  destruct c as [|z|q|s]; simpl.
  - intros _. exact Hnan.
  - unfold astype_int. simpl. rewrite Z.quot_1_r. intros Hz.
    destruct d; simpl; [reflexivity|].
    unfold Float64.of_int. rewrite (round_int_small _ Hz).
    f_equal. apply to_int64_integer.
    unfold Float64.int64_min, Float64.int64_max.
    assert (2 ^ 53 < 2 ^ 63) by reflexivity. lia.
  - apply Hfloat.
  - unfold plain_reader. destruct (parse_numeric s) as [q|]; simpl.
    + apply Hfloat.
    + intros _. exact Hnan.
Qed.

(** The Price and the Revenue of the two loaders. *)
Lemma price_plain (parse_numeric : string -> option Q)
    (d : Table.dtype) (c : cell) (n : Z) :
  within_float64 c ->
  Z.abs n <= 2 ^ 53 ->
  let P := Table.as_dtype d
             (Table.to_numeric (plain_reader parse_numeric)
                               (plain_value c)) in
  match to_numeric parse_numeric c with
  | None =>
      P = Table.SFloat Float64.NaN /\
      Table.times n P = Table.SFloat Float64.NaN
  | Some p =>
      (P = Table.SFloat (Float64.Finite p) /\
       Table.times n P
       = Table.SFloat (Float64.round64 (inject_Z n * p))) \/
      (exists z, p = inject_Z z /\ P = Table.SInt z /\
                 Table.times n P = Table.SInt (Float64.wrap64 (n * z)))
  end.
Proof.
  intros Hc Hn.
  assert (Hfloat : forall p,
             let P := Table.as_dtype d (Table.SFloat (Float64.Finite p)) in
             P = Table.SFloat (Float64.Finite p) /\
             Table.times n P
             = Table.SFloat (Float64.round64 (inject_Z n * p))).
  { intros p. destruct d; simpl; unfold Float64.of_int;
      rewrite (round_int_small _ Hn); split; reflexivity. }
  assert (Hnan : let P := Table.as_dtype d (Table.SFloat Float64.NaN) in
                 P = Table.SFloat Float64.NaN /\
                 Table.times n P = Table.SFloat Float64.NaN)
    by (destruct d; split; reflexivity).
  destruct c as [|z|q|s]; simpl.
  - exact Hnan.
  - simpl in Hc. destruct d; simpl.
    + right. exists z. repeat split.
    + left. unfold Float64.of_int.
      rewrite (round_int_small _ Hc), (round_int_small _ Hn).
      split; reflexivity.
  - left. apply Hfloat.
  - unfold plain_reader. destruct (parse_numeric s) as [q|]; simpl.
    + left. apply Hfloat.
    + exact Hnan.
Qed.

Lemma load_row_plain (parse_numeric : string -> option Q)
    (quantity_dtype price_dtype : Table.dtype) (r : RawRow) :
  Z.abs (Quantity (load_row parse_numeric r)) <= 2 ^ 53 ->
  within_float64 (price r) ->
  exists t',
    Table.load_row (plain_reader parse_numeric) quantity_dtype price_dtype
                   (plain_row r) = inr t' /\
    agrees (load_row parse_numeric r) t'.
Proof.
  intros Hq Hp. unfold Table.load_row. cbn [plain_row Table.quantity
    Table.price Table.date Table.bill_no Table.itemname Table.customer_id
    Table.country].
  simpl in Hq. rewrite (@quantity_plain parse_numeric quantity_dtype _ Hq).
  eexists. split; [reflexivity|]. unfold agrees. simpl.
  repeat (split; [reflexivity|]).
  pose proof (@price_plain parse_numeric price_dtype (price r) _ Hp Hq)
    as Hprice. cbv zeta in Hprice.
  destruct (to_numeric parse_numeric (price r)) as [p|]; simpl.
  - eexists. split; [reflexivity|]. exact Hprice.
  - destruct Hprice as [HP HR]. repeat split; assumption.
Qed.

(** X19: on a table whose dates are all present, whose numbers are
    all finite, and whose loaded Quantity and integer Price cells are at
    most [2^53] in magnitude, [load_data] does not raise, and the frame
    it returns has, row by row, the fields of the frame with exact
    prices that the filters and the sections are stated on; its Revenue
    is the exact Revenue rounded to the nearest float64 (in a Price
    column of integers, the int64 product). *)
Theorem load_data_plain (parse_numeric : string -> option Q)
    (table : list RawRow) :
  Forall (fun r => Z.abs (Quantity (load_row parse_numeric r)) <= 2 ^ 53 /\
                   within_float64 (price r)) table ->
  exists frame,
    Table.load_data (plain_reader parse_numeric) (map plain_row table)
      = inr frame /\
    Forall2 agrees (load_data parse_numeric table) frame.
Proof.
  intros Hall. unfold Table.load_data, load_data.
  apply traverse_map_Forall2.
  intros r Hr. rewrite Forall_forall in Hall.
  destruct (Hall r Hr) as [Hq Hp]. now apply load_row_plain.
Qed.

Lemma load_data_plain_witness :
  exists frame,
    Table.load_data (plain_reader Sample.no_number)
                    (map plain_row Sample.table) = inr frame /\
    Forall2 agrees Sample.df frame.
Proof.
  apply (@load_data_plain Sample.no_number Sample.table).
  repeat constructor; vm_compute; discriminate.
Defined.

(** The exact Revenue and the float64 one differ where the product is
    not a double: 3 items at the double nearest to 0.1. *)
Example revenue_rounded :
  let tenth := 3602879701896397 # 36028797018963968 in
  match Table.load_data Sample.not_a_number
          [Table.mkRaw None None (Table.Int 3) None
             (Table.Float (Float64.Finite tenth)) None None] with
  | inr [t] =>
      Table.Revenue t
      = Table.SFloat
          (Float64.Finite (1351079888211149 # 4503599627370496)) /\
      ~ (inject_Z 3 * tenth == 1351079888211149 # 4503599627370496)%Q
  | _ => False
  end.
Proof.
  vm_compute. split; [reflexivity | discriminate].
Qed.
